(** * Weather forecast and health advisor: the processing logic of [app.py]

    A shallow embedding of the data-bearing parts of the Streamlit
    application: the join-and-resample pipeline ([process_data]), the forecast
    fetcher ([fetch_forecast_data]), the site registry handlers ("Save
    Changes" and "Add Site"), the cached advisory generator
    ([get_health_recommendations]) and the loop that builds the advisory
    table.

    Conventions.
    - A pandas [datetime64[ns]] index value is an integer count of
      nanoseconds since 1970-01-01T00:00 (type [Z]).
    - A cell of a numeric column is [option Q]: [None] is the missing value
      (JSON [null], pandas [NaN]); arithmetic on present values is exact.
    - A Python exception that leaves a function is an explicit outcome. *)

From Stdlib Require Import ZArith QArith Qminmax List String Ascii Lia Bool.
From stdpp Require Import base option list gmap strings.
Import ListNotations.

Local Open Scope Z_scope.

(** ** Calendar arithmetic behind [resample('D')] and [strftime('%Y-%m-%d')] *)

Module Calendar.

Definition ns_per_day : Z := 86400 * 1000000000.

(** The day bin of a timestamp: its midnight floor, counted in days since the
    epoch. *)
Definition day_of (t : Z) : Z := t / ns_per_day.

(** Proleptic Gregorian date of a day count (the conversion pandas applies
    before formatting). *)
Definition civil_from_days (z : Z) : Z * Z * Z :=
  let z := z + 719468 in
  let era := z / 146097 in
  let doe := z - era * 146097 in
  let yoe := (doe - doe / 1460 + doe / 36524 - doe / 146096) / 365 in
  let y := yoe + era * 400 in
  let doy := doe - (365 * yoe + yoe / 4 - yoe / 100) in
  let mp := (5 * doy + 2) / 153 in
  let d := doy - (153 * mp + 2) / 5 + 1 in
  let m := if mp <? 10 then mp + 3 else mp - 9 in
  (if m <=? 2 then y + 1 else y, m, d).

Definition days_from_civil (y m d : Z) : Z :=
  let y := if m <=? 2 then y - 1 else y in
  let era := y / 400 in
  let yoe := y - era * 400 in
  let doy := (153 * (if m >? 2 then m - 3 else m + 9) + 2) / 5 + d - 1 in
  let doe := yoe * 365 + yoe / 4 - yoe / 100 + doy in
  era * 146097 + doe - 719468.

(** Timestamp of [y-m-d hh:00] in nanoseconds, for writing sample inputs. *)
Definition at_hour (y m d hh : Z) : Z :=
  days_from_civil y m d * ns_per_day + hh * 3600 * 1000000000.

Definition digit (n : Z) : ascii :=
  ascii_of_nat (48 + Z.to_nat (n mod 10)).

Definition pad2 (n : Z) : string :=
  String (digit (n / 10)) (String (digit n) EmptyString).

Definition pad4 (n : Z) : string :=
  String (digit (n / 1000)) (String (digit (n / 100)) (pad2 n)).

(** ['%Y-%m-%d'] on the date of day [d]. *)
Definition strftime_Ymd (d : Z) : string :=
  let '(y, m, dd) := civil_from_days d in
  (pad4 y ++ "-" ++ pad2 m ++ "-" ++ pad2 dd)%string.

(** A [datetime64[ns]] value is a signed 64-bit count of nanoseconds; its
    days run from 1677-09-21 (day -106752) to 2262-04-11 (day 106751). *)
Definition representable (t : Z) : Prop := - 2 ^ 63 <= t < 2 ^ 63.

End Calendar.

(** ** The aggregation pipeline: [process_data] *)

Module Pipeline.
Import Calendar.

(** The ['hourly'] object of the weather response: one array per field. *)
Record weather_hourly := {
  w_time : list Z;
  temperature_2m : list (option Q);
  relativehumidity_2m : list (option Q);
  rain : list (option Q);
  windspeed_10m : list (option Q) }.

(** The ['hourly'] object of the air-quality response. *)
Record aqi_hourly := {
  a_time : list Z;
  us_aqi : list (option Q) }.

(** The Python value bound to [weather_data] or [aqi_data]: [None] (what the
    fetcher returns on failure), the empty object, or a non-empty object whose
    ['hourly'] key may be absent. The model covers responses of the shape the
    two services document: an ['hourly'] object has its ['time'] array and
    its value arrays, and its timestamps parse. A truthy value that is not an
    object, an ['hourly'] object without one of its arrays, or a timestamp
    that [to_datetime] refuses make the program raise and have no counterpart
    here. *)
Inductive payload (A : Type) : Type :=
| PyNone
| EmptyDict
| Dict (hourly : option A).
Arguments PyNone {A}.
Arguments EmptyDict {A}.
Arguments Dict {A} hourly.

(** Python truth value of a payload. *)
Definition truthy {A} (p : payload A) : bool :=
  match p with
  | Dict _ => true
  | _ => false
  end.

(** Rows of [weather_df] after the renaming of its columns. *)
Record weather_row := {
  w_Temp : option Q;
  w_Humidity : option Q;
  w_Rain : option Q;
  w_Wind : option Q }.

(** Rows of [hourly_df]: the weather columns followed by [AQI]. *)
Record hourly_row := {
  Temp : option Q;
  Humidity : option Q;
  Rain : option Q;
  Wind : option Q;
  AQI : option Q }.

(** Rows of [summary_df], columns in the order of the [agg] dictionary. *)
Record summary_row := {
  Temp_min : option Q;
  Temp_max : option Q;
  Humidity_min : option Q;
  Humidity_max : option Q;
  AQI_min : option Q;
  AQI_max : option Q;
  Wind_mean : option Q;
  Rain_sum : Q }.

Inductive exn := KeyError | ValueError.

Inductive outcome :=
| NoData                                   (* return None, None *)
| Frames (hourly_df : list (Z * hourly_row))
         (summary_df : list (string * summary_row))
| Raised (e : exn).

(** [pd.DataFrame(weather_data['hourly'])] indexed by ['time']: the arrays must
    have one length, otherwise pandas raises [ValueError]. *)
Definition weather_frame (h : weather_hourly) : option (list (Z * weather_row)) :=
  let n := length (w_time h) in
  if (length (temperature_2m h) =? n)%nat && (length (relativehumidity_2m h) =? n)%nat
     && (length (rain h) =? n)%nat && (length (windspeed_10m h) =? n)%nat
  then Some (map (fun '(t, (te, (hu, (ra, wi)))) =>
                    (t, {| w_Temp := te; w_Humidity := hu; w_Rain := ra; w_Wind := wi |}))
               (combine (w_time h) (combine (temperature_2m h)
                  (combine (relativehumidity_2m h) (combine (rain h) (windspeed_10m h))))))
  else None.

Definition aqi_frame (h : aqi_hourly) : option (list (Z * option Q)) :=
  if (length (us_aqi h) =? length (a_time h))%nat
  then Some (combine (a_time h) (us_aqi h))
  else None.

Definition join_row (r : weather_row) (q : option Q) : hourly_row :=
  {| Temp := w_Temp r; Humidity := w_Humidity r; Rain := w_Rain r;
     Wind := w_Wind r; AQI := q |}.

(** [weather_df.join(aqi_df, how='inner')]: in the order of the calling
    frame, every weather row paired with every air-quality row of the same
    timestamp. *)
Definition join_inner (w : list (Z * weather_row)) (a : list (Z * option Q))
  : list (Z * hourly_row) :=
  flat_map (fun wr => map (fun ar => (fst wr, join_row (snd wr) (snd ar)))
                        (List.filter (fun ar => fst ar =? fst wr) a)) w.

(** The values of a column that are not missing (pandas skips [NaN]). *)
Fixpoint present (vals : list (option Q)) : list Q :=
  match vals with
  | [] => []
  | Some x :: vs => x :: present vs
  | None :: vs => present vs
  end.

Definition agg_min (vals : list (option Q)) : option Q :=
  match present vals with
  | [] => None
  | x :: xs => Some (fold_left Qmin xs x)
  end.

Definition agg_max (vals : list (option Q)) : option Q :=
  match present vals with
  | [] => None
  | x :: xs => Some (fold_left Qmax xs x)
  end.

(** The sum and the mean are taken in exact arithmetic. pandas computes them
    in double precision, so its results agree with these up to rounding only:
    the properties below rely on the sign of a sum, on the sum of no value and
    on the presence of a mean, never on their exact value. *)
Definition agg_sum (vals : list (option Q)) : Q :=
  fold_left Qplus (present vals) 0%Q.

Definition agg_mean (vals : list (option Q)) : option Q :=
  match present vals with
  | [] => None
  | xs => Some (fold_left Qplus xs 0 / inject_Z (Z.of_nat (length xs)))%Q
  end.

(** The daily bins of [resample('D')]: every day from the day of the earliest
    timestamp to the day of the latest one. *)
Definition day_labels (times : list Z) : list Z :=
  match times with
  | [] => []
  | t :: ts =>
      let first := day_of (fold_right Z.min t ts) in
      let last := day_of (fold_right Z.max t ts) in
      seqZ first (last - first + 1)
  end.

(** The rows of a frame that fall into the bin of day [d]. *)
Definition bin (d : Z) (df : list (Z * hourly_row)) : list hourly_row :=
  map snd (List.filter (fun r => day_of (fst r) =? d) df).

Definition aggregate (rows : list hourly_row) : summary_row :=
  {| Temp_min := agg_min (map Temp rows);
     Temp_max := agg_max (map Temp rows);
     Humidity_min := agg_min (map Humidity rows);
     Humidity_max := agg_max (map Humidity rows);
     AQI_min := agg_min (map AQI rows);
     AQI_max := agg_max (map AQI rows);
     Wind_mean := agg_mean (map Wind rows);
     Rain_sum := agg_sum (map Rain rows) |}.

(** [hourly_df.resample('D').agg({...})] with the index formatted by
    [strftime('%Y-%m-%d')]. *)
Definition resample_daily (df : list (Z * hourly_row)) : list (string * summary_row) :=
  map (fun d => (strftime_Ymd d, aggregate (bin d df))) (day_labels (map fst df)).

Definition process_data (weather_data : payload weather_hourly)
                        (aqi_data : payload aqi_hourly) : outcome :=
  if negb (truthy weather_data) || negb (truthy aqi_data) then NoData else
  match weather_data, aqi_data with
  | Dict wh, Dict ah =>
      match wh with
      | None => Raised KeyError
      | Some wh =>
          match weather_frame wh with
          | None => Raised ValueError
          | Some weather_df =>
              match ah with
              | None => Raised KeyError
              | Some ah =>
                  match aqi_frame ah with
                  | None => Raised ValueError
                  | Some aqi_df =>
                      let hourly_df := join_inner weather_df aqi_df in
                      Frames hourly_df (resample_daily hourly_df)
                  end
              end
          end
      end
  | _, _ => NoData
  end.

End Pipeline.

Module PipelineExamples.
Import Calendar Pipeline.

Definition num (z : Z) : option Q := Some (inject_Z z).

(** The sample of the specification: four hours of 2024-06-01. *)
Definition june1 : list Z := map (at_hour 2024 6 1) [0; 1; 2; 3].

Definition weather_june1 : weather_hourly :=
  {| w_time := june1;
     temperature_2m := map num [20; 22; 19; 25];
     relativehumidity_2m := map num [50; 55; 48; 60];
     rain := map num [0; 1; 0; 2];
     windspeed_10m := map num [10; 12; 8; 10] |}.

Definition aqi_june1 : aqi_hourly :=
  {| a_time := june1; us_aqi := map num [30; 35; 28; 40] |}.

(** Two samples two days apart: nothing on 2024-06-02. *)
Definition gap_times : list Z := [at_hour 2024 6 1 0; at_hour 2024 6 3 0].

Definition weather_gap : weather_hourly :=
  {| w_time := gap_times;
     temperature_2m := map num [20; 22];
     relativehumidity_2m := map num [50; 55];
     rain := map num [0; 1];
     windspeed_10m := map num [10; 12] |}.

Definition aqi_gap : aqi_hourly :=
  {| a_time := gap_times; us_aqi := map num [30; 35] |}.

(** The same two samples with a negative rain reading. *)
Definition weather_negative_rain : weather_hourly :=
  {| w_time := gap_times;
     temperature_2m := map num [20; 22];
     relativehumidity_2m := map num [50; 55];
     rain := map num [-1; 0];
     windspeed_10m := map num [10; 12] |}.

(** A response whose hourly arrays are all empty. *)
Definition weather_no_samples : weather_hourly :=
  {| w_time := []; temperature_2m := []; relativehumidity_2m := [];
     rain := []; windspeed_10m := [] |}.

(** Five weather hours, of which the air-quality series lacks 02:00. *)
Definition weather_five : weather_hourly :=
  {| w_time := map (at_hour 2024 6 1) [0; 1; 2; 3; 4];
     temperature_2m := map num [20; 22; 19; 25; 24];
     relativehumidity_2m := map num [50; 55; 48; 60; 58];
     rain := map num [0; 1; 0; 2; 0];
     windspeed_10m := map num [10; 12; 8; 10; 9] |}.

Definition aqi_four : aqi_hourly :=
  {| a_time := map (at_hour 2024 6 1) [0; 1; 3; 4];
     us_aqi := map num [30; 35; 28; 40] |}.

(** Two air-quality samples later on 2024-06-01, at hours the weather samples
    of [weather_gap] do not have. *)
Definition aqi_june1_later : aqi_hourly :=
  {| a_time := [at_hour 2024 6 1 5; at_hour 2024 6 1 6]; us_aqi := map num [30; 35] |}.

End PipelineExamples.

(** ** What a daily row must contain, stated on the hourly table *)

Module PipelineSpec.
Import Calendar Pipeline.

(** Timestamp [t] lies on day [d] (UTC): between its midnight and the next. *)
Definition on_date (d t : Z) : Prop :=
  d * ns_per_day <= t < (d + 1) * ns_per_day.

Definition on_dateb (d t : Z) : bool :=
  (d * ns_per_day <=? t) && (t <? (d + 1) * ns_per_day).

(** The hourly values of a column on day [d] that are not missing, in table
    order. *)
Fixpoint values_on (col : hourly_row -> option Q) (d : Z)
                   (df : list (Z * hourly_row)) : list Q :=
  match df with
  | [] => []
  | (t, r) :: df' =>
      if on_dateb d t then
        match col r with
        | Some x => x :: values_on col d df'
        | None => values_on col d df'
        end
      else values_on col d df'
  end.

Fixpoint Qsum (l : list Q) : Q :=
  match l with
  | [] => 0
  | x :: l' => x + Qsum l'
  end.

Definition is_min_of (vals : list Q) (m : option Q) : Prop :=
  match m with
  | None => vals = []
  | Some x => In x vals /\ forall y, In y vals -> (x <= y)%Q
  end.

Definition is_max_of (vals : list Q) (m : option Q) : Prop :=
  match m with
  | None => vals = []
  | Some x => In x vals /\ forall y, In y vals -> (y <= x)%Q
  end.

(** The row of day [d] against the hourly values of that day. The minimum and
    the maximum are values of the column and are pinned exactly. The mean and
    the sum are computed by pandas in double precision, so of them only what
    rounding cannot change is stated: the mean is missing exactly when the day
    has no value, and the sum of a day without values is 0. *)
Record daily_row_spec (df : list (Z * hourly_row)) (d : Z) (row : summary_row) : Prop := {
  spec_temp_min : is_min_of (values_on Temp d df) (Temp_min row);
  spec_temp_max : is_max_of (values_on Temp d df) (Temp_max row);
  spec_humidity_min : is_min_of (values_on Humidity d df) (Humidity_min row);
  spec_humidity_max : is_max_of (values_on Humidity d df) (Humidity_max row);
  spec_aqi_min : is_min_of (values_on AQI d df) (AQI_min row);
  spec_aqi_max : is_max_of (values_on AQI d df) (AQI_max row);
  spec_wind_mean : Wind_mean row = None <-> values_on Wind d df = [];
  spec_rain_sum : values_on Rain d df = [] -> Rain_sum row = 0%Q }.

(** [d] is the earliest (latest) date with a row in the hourly table. *)
Definition earliest_date (df : list (Z * hourly_row)) (d : Z) : Prop :=
  (exists t r, In (t, r) df /\ on_date d t) /\
  forall t r, In (t, r) df -> d * ns_per_day <= t.

Definition latest_date (df : list (Z * hourly_row)) (d : Z) : Prop :=
  (exists t r, In (t, r) df /\ on_date d t) /\
  forall t r, In (t, r) df -> t < (d + 1) * ns_per_day.

(** The dates that have a row in the hourly table, each once. *)
Definition dates_present (df : list (Z * hourly_row)) : list Z :=
  remove_dups (map (fun r => day_of (fst r)) df).

(** One summary row per date present, keyed by the formatted date. *)
Definition one_row_per_present_date (df : list (Z * hourly_row))
                                    (summary : list (string * summary_row)) : Prop :=
  Permutation (map fst summary) (map strftime_Ymd (dates_present df)).

(** Comparison of two cells as pandas evaluates it: false as soon as one of
    them is missing. *)
Definition cell_le (a b : option Q) : Prop :=
  match a, b with
  | Some x, Some y => (x <= y)%Q
  | _, _ => False
  end.

(** The invariant of a daily row as the data model words it. *)
Definition row_invariant (row : summary_row) : Prop :=
  cell_le (Temp_min row) (Temp_max row) /\
  cell_le (Humidity_min row) (Humidity_max row) /\
  cell_le (AQI_min row) (AQI_max row) /\
  (0 <= Rain_sum row)%Q.

(** A minimum and a maximum that are missing together or ordered. *)
Definition range_ok (a b : option Q) : Prop :=
  match a, b with
  | Some x, Some y => (x <= y)%Q
  | None, None => True
  | _, _ => False
  end.


(** The weather payload that holds exactly the given rows, and the payload
    obtained by removing every sample of timestamp [t]. *)
Definition weather_of_rows (rows : list (Z * weather_row)) : weather_hourly :=
  {| w_time := map fst rows;
     temperature_2m := map (fun r => w_Temp (snd r)) rows;
     relativehumidity_2m := map (fun r => w_Humidity (snd r)) rows;
     rain := map (fun r => w_Rain (snd r)) rows;
     windspeed_10m := map (fun r => w_Wind (snd r)) rows |}.

Definition aqi_of_rows (rows : list (Z * option Q)) : aqi_hourly :=
  {| a_time := map fst rows; us_aqi := map snd rows |}.

Definition without_time {A} (t : Z) (rows : list (Z * A)) : list (Z * A) :=
  List.filter (fun r => negb (fst r =? t)) rows.

Definition drop_weather_time (t : Z) (h : weather_hourly) : weather_hourly :=
  match weather_frame h with
  | Some rows => weather_of_rows (without_time t rows)
  | None => h
  end.

Definition drop_aqi_time (t : Z) (h : aqi_hourly) : aqi_hourly :=
  match aqi_frame h with
  | Some rows => aqi_of_rows (without_time t rows)
  | None => h
  end.

(** Number of samples a payload carries. *)
Definition samples_weather (p : payload weather_hourly) : nat :=
  match p with
  | Dict (Some h) => length (w_time h)
  | _ => 0
  end.

Definition samples_aqi (p : payload aqi_hourly) : nat :=
  match p with
  | Dict (Some h) => length (a_time h)
  | _ => 0
  end.

End PipelineSpec.

(** ** The forecast fetcher: [fetch_forecast_data] *)

Module Fetcher.
Section Fetch.

(** [coord] is the type of the coordinates handed over, [body] the type of a
    decoded JSON response. *)
Variables coord body : Type.

Inductive request :=
| Forecast (latitude longitude : coord)      (* api.open-meteo.com/v1/forecast *)
| AirQuality (latitude longitude : coord).   (* air-quality-api.open-meteo.com *)

(** What [requests.get] gives back: it raises a [RequestException] (no
    connection, timeout, ...) or returns a response with its status code and,
    when its text is valid JSON, the decoded value. *)
Inductive reply :=
| TransportError (cause : string)
| Response (status_code : Z) (json : option body).

(** [raise_for_status] raises [HTTPError] on client and server error codes. *)
Definition raises_for_status (status_code : Z) : bool :=
  (400 <=? status_code) && (status_code <? 600).

(** One request of the [try] block: [get], [raise_for_status], [json]. Each of
    the three raises a [RequestException] when it fails (for [json] this is
    [requests.exceptions.JSONDecodeError]). *)
Definition get_json (r : reply) : string + body :=
  match r with
  | TransportError cause => inl cause
  | Response status_code json =>
      if raises_for_status status_code then inl "HTTPError"%string
      else match json with
           | None => inl "JSONDecodeError"%string
           | Some data => inr data
           end
  end.

(** The returned pair, the requests issued in order, and the messages shown
    with [st.error]. *)
Record fetched := {
  returned : option body * option body;
  requested : list request;
  reported : list string }.

Definition failure_message (e : string) : string :=
  ("Failed to fetch data from APIs. Error: " ++ e)%string.

Definition fetch_forecast_data (network : request -> reply)
                               (latitude longitude : coord) : fetched :=
  match get_json (network (Forecast latitude longitude)) with
  | inl e =>
      {| returned := (None, None);
         requested := [Forecast latitude longitude];
         reported := [failure_message e] |}
  | inr weather_data =>
      match get_json (network (AirQuality latitude longitude)) with
      | inl e =>
          {| returned := (None, None);
             requested := [Forecast latitude longitude; AirQuality latitude longitude];
             reported := [failure_message e] |}
      | inr aqi_data =>
          {| returned := (Some weather_data, Some aqi_data);
             requested := [Forecast latitude longitude; AirQuality latitude longitude];
             reported := [] |}
      end
  end.

(** A request fails in transport or with an error status. *)
Definition request_fails (r : reply) : Prop :=
  match r with
  | TransportError _ => True
  | Response status_code _ => 400 <= status_code < 600
  end.

End Fetch.

Arguments Forecast {coord} latitude longitude.
Arguments AirQuality {coord} latitude longitude.
Arguments TransportError {body} cause.
Arguments Response {body} status_code json.
Arguments returned {coord body} f.
Arguments requested {coord body} f.
Arguments reported {coord body} f.
Arguments fetch_forecast_data {coord body} network latitude longitude.
Arguments get_json {body} r.
Arguments request_fails {body} r.

End Fetcher.

(** ** The site registry: loading, "Save Changes" and "Add Site" *)

Module Registry.
Section Sites.

(** [number] is the type of Python floats and [float] the builtin conversion
    of a text to a float, [None] standing for its [ValueError]. *)
Variable number : Type.
Variable float : string -> option number.

Record site := {
  latitude : number;
  longitude : number }.

(** [st.session_state] (the registry and the edit flag) together with the
    content of [sites.json], if the file exists. *)
Record session := {
  sites : gmap string site;
  edit_mode : bool;
  sites_file : option (gmap string site) }.

Inductive feedback :=
| Success (message : string)    (* st.success *)
| Error (message : string)      (* st.error *)
| Silent                        (* no branch taken, nothing shown *)
| RaisedKeyError.               (* uncaught, the script run aborts *)

(** [load_sites_to_session_state] on a fresh session. *)
Definition load_sites (file : option (gmap string site)) : gmap string site :=
  match file with
  | Some content => content
  | None => ∅
  end.

(** [save_sites]: the file is rewritten with the whole mapping. *)
Definition save_sites (sites_data : gmap string site) (s : session) : session :=
  {| sites := sites s; edit_mode := edit_mode s; sites_file := Some sites_data |}.

Definition set_sites (m : gmap string site) (s : session) : session :=
  {| sites := m; edit_mode := edit_mode s; sites_file := sites_file s |}.

Definition set_edit_mode (b : bool) (s : session) : session :=
  {| sites := sites s; edit_mode := b; sites_file := sites_file s |}.

(** A click on "Save Changes" for the selected site, with the texts of the
    two coordinate inputs. The button exists in edit mode only. The two
    assignments run one after the other; each converts its text first and
    then stores into the entry of the selected site. *)
Definition save_changes (s : session) (selected_site lat_display lon_display : string)
  : session * feedback :=
  if negb (edit_mode s) then (s, Silent) else
  match float lat_display with
  | None => (s, Error "Invalid coordinates.")
  | Some lat =>
      match sites s !! selected_site with
      | None => (s, RaisedKeyError)
      | Some info =>
          let s1 := set_sites (<[selected_site :=
                                  {| latitude := lat; longitude := longitude info |}]> (sites s)) s in
          match float lon_display with
          | None => (s1, Error "Invalid coordinates.")
          | Some lon =>
              let s2 := set_sites (<[selected_site :=
                                      {| latitude := lat; longitude := lon |}]> (sites s1)) s1 in
              (set_edit_mode false (save_sites (sites s2) s2), Success "Coordinates updated!")
          end
      end
  end.

Definition nonempty (text : string) : bool :=
  match text with
  | EmptyString => false
  | _ => true
  end.

(** Submission of the "Add New Site" form. *)
Definition add_site (s : session) (new_site_name new_lat new_lon : string)
  : session * feedback :=
  if nonempty new_site_name && nonempty new_lat && nonempty new_lon then
    match float new_lat with
    | None => (s, Error "Please enter valid numeric coordinates.")
    | Some lat =>
        match float new_lon with
        | None => (s, Error "Please enter valid numeric coordinates.")
        | Some lon =>
            (set_sites (<[new_site_name := {| latitude := lat; longitude := lon |}]> (sites s)) s,
             Success ("Site '" ++ new_site_name ++ "' added for this session!"))
        end
    end
  else (s, Silent).

End Sites.

Arguments latitude {number} s.
Arguments longitude {number} s.
Arguments Build_site {number} latitude longitude.
Arguments sites {number} s.
Arguments edit_mode {number} s.
Arguments sites_file {number} s.
Arguments Build_session {number} sites edit_mode sites_file.
Arguments load_sites {number} file.
Arguments save_sites {number} sites_data s.
Arguments set_sites {number} m s.
Arguments set_edit_mode {number} b s.
Arguments save_changes {number} float s selected_site lat_display lon_display.
Arguments add_site {number} float s new_site_name new_lat new_lon.

(** The range the data model asks of a site. *)
Definition in_range (lat lon : Q) : Prop :=
  (-90 <= lat <= 90)%Q /\ (-180 <= lon <= 180)%Q.

End Registry.

(** ** Decoded JSON values *)

#[warnings="-register-all"]
Inductive json :=
| JNull
| JBool (b : bool)
| JNumber (q : Q)
| JString (s : string)
| JArray (items : list json)
| JObject (fields : list (string * json)).

(** Lookup of a key among the fields of an object. *)
Fixpoint assoc (key : string) (fields : list (string * json)) : option json :=
  match fields with
  | [] => None
  | (k, v) :: rest => if String.eqb k key then Some v else assoc key rest
  end.

(** ** The cached advisory generator: [get_health_recommendations] *)

Module Advisory.

(** What the function body depends on: the configured secret, the replies of
    the generative service (by number of the invocation and prompt; [None]
    when [generate_content] raises) and [json.loads] ([None] when it raises). *)
Record environment := {
  api_key : option string;
  generate_content : nat -> string -> option string;
  json_loads : string -> option json }.

Definition prompt (summary_df_json : string) : string :=
  ("Analyze the following daily weather summary. For each date ('day'), provide structured, short (atmost 2 lines) health recommendations for three groups: 'Children & Elderly', 'People with Morbidities', and 'Adults'. The date in your response MUST match the date in the input data.
    DATA: " ++ summary_df_json ++ "
    Generate the output in a valid JSON array format according to the provided schema.")%string.

(** The body of the function. It returns the parsed response, or [None],
    together with the number of service invocations made so far. The test
    [if not api_key] stops on a missing secret and on an empty one. *)
Definition generate (env : environment) (invocations : nat) (summary_df_json : string)
  : option json * nat :=
  match api_key env with
  | None | Some EmptyString => (None, invocations)
  | Some _ =>
      match generate_content env invocations (prompt summary_df_json) with
      | None => (None, S invocations)
      | Some text => (json_loads env text, S invocations)
      end
  end.

(** [st.cache_data(ttl=3600)]: returned values are kept by argument value
    with the time they were stored at. *)
Definition ttl : Z := 3600.

Record entry := {
  stored_at : Z;
  cached : option json }.

Record advisor := {
  cache : gmap string entry;
  invocations : nat }.

Definition fresh (e : entry) (now : Z) : bool := now <? stored_at e + ttl.

Definition regenerate (env : environment) (st : advisor) (now : Z) (summary_df_json : string)
  : option json * advisor :=
  let '(value, n) := generate env (invocations st) summary_df_json in
  (value, {| cache := <[summary_df_json := {| stored_at := now; cached := value |}]> (cache st);
             invocations := n |}).

(** A call of the decorated function at time [now] (in seconds). *)
Definition get_health_recommendations (env : environment) (st : advisor) (now : Z)
                                      (summary_df_json : string) : option json * advisor :=
  match cache st !! summary_df_json with
  | Some e => if fresh e now then (cached e, st) else regenerate env st now summary_df_json
  | None => regenerate env st now summary_df_json
  end.

(** The cache holds for the argument an entry that has not expired at [now]. *)
Definition still_fresh (st : advisor) (summary_df_json : string) (now : Z) : Prop :=
  exists e, cache st !! summary_df_json = Some e /\ now < stored_at e + ttl.

(** [get_health_recommendations.clear()], the "Reload Recommendations" button. *)
Definition clear (st : advisor) : advisor :=
  {| cache := ∅; invocations := invocations st |}.

End Advisory.

(** ** The advisory table *)

Module Rendering.

Definition NA : json := JString "N/A".

(** [obj.get(key, default)]; [None] is the [AttributeError] of a value that is
    not a dictionary. *)
Definition dict_get (obj : json) (key : string) (default : json) : option json :=
  match obj with
  | JObject fields =>
      Some (match assoc key fields with
            | Some v => v
            | None => default
            end)
  | _ => None
  end.

(** [index_dates] and the three lists of [rec_data]. *)
Record rec_table := {
  index_dates : list json;
  children_and_elderly : list json;
  people_with_morbidities : list json;
  adults : list json }.

Definition empty_table : rec_table :=
  {| index_dates := []; children_and_elderly := [];
     people_with_morbidities := []; adults := [] |}.

(** One turn of the loop: four appends, each after its own lookups. *)
Definition append_rec (t : rec_table) (rec : json) : option rec_table :=
  day ← dict_get rec "day" NA;
  r1 ← dict_get rec "recommendations" (JObject []);
  c ← dict_get r1 "children_and_elderly" NA;
  r2 ← dict_get rec "recommendations" (JObject []);
  m ← dict_get r2 "people_with_morbidities" NA;
  r3 ← dict_get rec "recommendations" (JObject []);
  a ← dict_get r3 "adults" NA;
  Some {| index_dates := index_dates t ++ [day];
          children_and_elderly := children_and_elderly t ++ [c];
          people_with_morbidities := people_with_morbidities t ++ [m];
          adults := adults t ++ [a] |}.

Definition loop (recs : list json) : option rec_table :=
  fold_left (fun acc rec => t ← acc; append_rec t rec) recs (Some empty_table).

Inductive display :=
| Table (t : rec_table)     (* the loop ended; rec_df is built from t and shown *)
| Warning                   (* "Could not generate health recommendations." *)
| Crash.                    (* an exception leaves the loop *)

(** Python truth value of what the generator returned. *)
Definition truthy (recommendations : option json) : bool :=
  match recommendations with
  | None | Some JNull | Some (JBool false) | Some (JString EmptyString)
  | Some (JArray []) | Some (JObject []) => false
  | Some (JNumber q) => negb (Qeq_bool q 0)
  | Some _ => true
  end.

(** The [if recommendations:] block. Only a list can be walked by the loop
    without an exception: a number or a boolean is not iterable, and the
    characters of a text or the keys of an object have no [get]. [Table t]
    says that the loop has ended with the lists [t]; the construction of
    [rec_df] from them by pandas is not modelled. With texts as days, as the
    schema has them, it gives the table with one row per item of [t]. *)
Definition render (recommendations : option json) : display :=
  if truthy recommendations then
    match recommendations with
    | Some (JArray recs) =>
        match loop recs with
        | Some t => Table t
        | None => Crash
        end
    | _ => Crash
    end
  else Warning.

(** The response schema sent to the service: an array of objects whose
    optional ["day"] is a text and whose optional ["recommendations"] is an
    object with three optional texts. *)
Definition is_text_or_absent (v : option json) : bool :=
  match v with
  | None | Some (JString _) => true
  | Some _ => false
  end.

Definition conforms (rec : json) : bool :=
  match rec with
  | JObject fields =>
      is_text_or_absent (assoc "day" fields) &&
      match assoc "recommendations" fields with
      | None => true
      | Some (JObject rfields) =>
          is_text_or_absent (assoc "children_and_elderly" rfields) &&
          is_text_or_absent (assoc "people_with_morbidities" rfields) &&
          is_text_or_absent (assoc "adults" rfields)
      | Some _ => false
      end
  | _ => false
  end.

(** The text shown for an entry: its day, and its recommendation for a group,
    with the placeholder for whatever is absent. *)
Definition day_text (rec : json) : string :=
  match rec with
  | JObject fields =>
      match assoc "day" fields with
      | Some (JString s) => s
      | _ => "N/A"
      end
  | _ => "N/A"
  end.

Definition advice_text (group : string) (rec : json) : string :=
  match rec with
  | JObject fields =>
      match assoc "recommendations" fields with
      | Some (JObject rfields) =>
          match assoc group rfields with
          | Some (JString s) => s
          | _ => "N/A"
          end
      | _ => "N/A"
      end
  | _ => "N/A"
  end.

(** The table after the rows of [recs] have been appended to [t]. *)
Definition extended (t : rec_table) (recs : list json) : rec_table :=
  {| index_dates := index_dates t ++ map (fun r => JString (day_text r)) recs;
     children_and_elderly :=
       children_and_elderly t ++ map (fun r => JString (advice_text "children_and_elderly" r)) recs;
     people_with_morbidities :=
       people_with_morbidities t
         ++ map (fun r => JString (advice_text "people_with_morbidities" r)) recs;
     adults := adults t ++ map (fun r => JString (advice_text "adults" r)) recs |}.

End Rendering.

(** ** Sample inputs for the registry, the fetcher and the advisory table *)

Module Samples.
Import Registry.

(** Reading of a plain decimal numeral (sign, digits, at most one point), the
    texts on which the samples below rely; Python's [float] reads these texts
    to the same values. *)
Definition digit_value (c : ascii) : option Z :=
  let n := Z.of_nat (nat_of_ascii c) in
  if (48 <=? n) && (n <=? 57) then Some (n - 48) else None.

Fixpoint decimal_digits (s : string) (seen_point : bool) (num : Z) (scale : positive)
                        (any : bool) : option Q :=
  match s with
  | EmptyString => if any then Some (Qred (num # scale)) else None
  | String c rest =>
      if Ascii.eqb c "." then
        if seen_point then None else decimal_digits rest true num scale any
      else
        match digit_value c with
        | Some d =>
            decimal_digits rest seen_point (10 * num + d)
              (if seen_point then (10 * scale)%positive else scale) true
        | None => None
        end
  end.

Definition decimal (s : string) : option Q :=
  match s with
  | String "-" rest => Qopp <$> decimal_digits rest false 0 1 false
  | String "+" rest => decimal_digits rest false 0 1 false
  | _ => decimal_digits s false 0 1 false
  end.

Definition lakeview : site Q := {| latitude := 1297 # 100; longitude := 7759 # 100 |}.

(** A session in edit mode whose registry and file hold one site. *)
Definition editing : session Q :=
  {| sites := {[ "Lakeview"%string := lakeview ]};
     edit_mode := true;
     sites_file := Some {[ "Lakeview"%string := lakeview ]} |}.

(** A network that answers both requests with status 200 and a body. *)
Definition network_ok (r : Fetcher.request Q) : Fetcher.reply string :=
  match r with
  | Fetcher.Forecast _ _ => Fetcher.Response 200 (Some "weather"%string)
  | Fetcher.AirQuality _ _ => Fetcher.Response 200 (Some "air quality"%string)
  end.

(** A network whose air-quality service answers 503. *)
Definition network_aqi_down (r : Fetcher.request Q) : Fetcher.reply string :=
  match r with
  | Fetcher.Forecast _ _ => Fetcher.Response 200 (Some "weather"%string)
  | Fetcher.AirQuality _ _ => Fetcher.Response 503 None
  end.

(** A response with a complete entry, an entry without recommendations for
    adults, and an entry that has neither day nor recommendations. *)
Definition advisory_response : list json :=
  [ JObject [("day"%string, JString "2024-06-01");
             ("recommendations"%string,
              JObject [("children_and_elderly"%string, JString "Stay indoors at noon.");
                       ("people_with_morbidities"%string, JString "Keep medication at hand.");
                       ("adults"%string, JString "Drink water.")])];
    JObject [("day"%string, JString "tomorrow");
             ("recommendations"%string,
              JObject [("children_and_elderly"%string, JString "Wear a mask.");
                       ("people_with_morbidities"%string, JString "Avoid exertion.")])];
    JObject [] ].

(** A generative service that answers every prompt with the same text. *)
Definition steady_env : Advisory.environment :=
  {| Advisory.api_key := Some "key"%string;
     Advisory.generate_content := fun _ _ => Some "[]"%string;
     Advisory.json_loads := fun _ => Some (JArray advisory_response) |}.

Definition no_cache : Advisory.advisor :=
  {| Advisory.cache := ∅; Advisory.invocations := 0 |}.

End Samples.

(** ** Start of a session *)

Module Startup.
Import Registry.
Section Load.
Variable number : Type.

(** [load_sites_to_session_state]: a registry that the session already has is
    kept; otherwise it is read from the file, or empty without a file. *)
Definition load_sites_to_session_state (in_session : option (gmap string (site number)))
                                       (file : option (gmap string (site number)))
  : gmap string (site number) :=
  match in_session with
  | Some registry => registry
  | None => load_sites file
  end.

(** The state of a new session over the given file. *)
Definition new_session (file : option (gmap string (site number))) : session number :=
  {| sites := load_sites_to_session_state None file;
     edit_mode := false;
     sites_file := file |}.

End Load.

Arguments load_sites_to_session_state {number} in_session file.
Arguments new_session {number} file.

End Startup.

(** ** The cache in front of [fetch_forecast_data] *)

Module ForecastCache.
Import Fetcher.
Section Cache.
Context {coord body : Type} `{EqDecision coord}.

(** [st.cache_data(ttl=3600)] on the fetcher: the returned pair is kept by
    the pair of arguments, with the time it was stored at. *)
Record slot := {
  fetched_at : Z;
  value : option body * option body }.

(** The stored pairs, latest first, and every request issued so far. *)
Record memo := {
  slots : list ((coord * coord) * slot);
  issued : list (request coord) }.

Fixpoint find_slot (key : coord * coord) (l : list ((coord * coord) * slot)) : option slot :=
  match l with
  | [] => None
  | (k, s) :: rest => if decide (k = key) then Some s else find_slot key rest
  end.

Definition ttl : Z := 3600.

Definition refetch (network : request coord -> reply body) (m : memo) (now : Z)
                   (latitude longitude : coord) : (option body * option body) * memo :=
  let out := fetch_forecast_data network latitude longitude in
  (returned out,
   {| slots := ((latitude, longitude), {| fetched_at := now; value := returned out |}) :: slots m;
      issued := issued m ++ requested out |}).

(** A call of the decorated fetcher at time [now] (in seconds). *)
Definition cached_fetch (network : request coord -> reply body) (m : memo) (now : Z)
                        (latitude longitude : coord) : (option body * option body) * memo :=
  match find_slot (latitude, longitude) (slots m) with
  | Some s =>
      if now <? fetched_at s + ttl then (value s, m)
      else refetch network m now latitude longitude
  | None => refetch network m now latitude longitude
  end.

End Cache.

Arguments slot : clear implicits.
Arguments memo : clear implicits.

End ForecastCache.

(** ** The part of the page below the map: forecast and advisory *)

Module Page.
Import Pipeline.
Section Flow.
Context {number body : Type} `{EqDecision number}.

(** How a decoded response is read as the payload of the pipeline, and
    [summary_df.to_json(orient='split')]. *)
Variable as_weather : body -> payload weather_hourly.
Variable as_aqi : body -> payload aqi_hourly.
Variable to_json : list (string * summary_row) -> string.

Record caches := {
  forecasts : ForecastCache.memo number body;
  advisories : Advisory.advisor }.

Inductive failure :=
| PipelineError (e : exn)
| AttributeError.               (* [summary_df] is [None] *)

Inductive view :=
| Prompt           (* "Select a site to view the forecast and health advisory." *)
| NoForecast       (* a falsy value was fetched: neither tables nor advice;
                      the message of the fetcher is all the page has of it *)
| Forecast (hourly_df : list (Z * hourly_row)) (summary_df : list (string * summary_row))
           (advice : Rendering.display)
| Aborted (e : failure).

Definition python_value {A} (decoded : option body) (read : body -> payload A) : payload A :=
  match decoded with
  | Some b => read b
  | None => PyNone
  end.

(** One run of the block [if selected_site != "Select a site": ...] at time
    [now]; [reload] tells whether "Reload Recommendations" was clicked. *)
Definition forecast_section (network : Fetcher.request number -> Fetcher.reply body)
                            (env : Advisory.environment) (c : caches) (now : Z)
                            (reload : bool) (selected_site : string) (lat lon : number)
  : view * caches :=
  if String.eqb selected_site "Select a site" then (Prompt, c) else
  let '(data, forecasts') := ForecastCache.cached_fetch network (forecasts c) now lat lon in
  let weather_data := python_value (fst data) as_weather in
  let aqi_data := python_value (snd data) as_aqi in
  let c1 := {| forecasts := forecasts'; advisories := advisories c |} in
  if truthy weather_data && truthy aqi_data then
    match process_data weather_data aqi_data with
    | Frames hourly_df summary_df =>
        let cleared := if reload then Advisory.clear (advisories c) else advisories c in
        let '(recommendations, advisories') :=
          Advisory.get_health_recommendations env cleared now (to_json summary_df) in
        (Forecast hourly_df summary_df (Rendering.render recommendations),
         {| forecasts := forecasts'; advisories := advisories' |})
    | Raised e => (Aborted (PipelineError e), c1)
    | NoData => (Aborted AttributeError, c1)
    end
  else (NoForecast, c1).

End Flow.

Arguments caches : clear implicits.
Arguments view : clear implicits.

End Page.

(** ** Shapes of the inputs of the pipeline *)

Module Shapes.
Import Pipeline.

(** The arrays of an ['hourly'] object have one length. *)
Definition aligned_weather (h : weather_hourly) : Prop :=
  length (temperature_2m h) = length (w_time h) /\
  length (relativehumidity_2m h) = length (w_time h) /\
  length (rain h) = length (w_time h) /\
  length (windspeed_10m h) = length (w_time h).

Definition aligned_aqi (h : aqi_hourly) : Prop :=
  length (us_aqi h) = length (a_time h).

(** The hourly row [r] is made of the weather sample at position [i] and of
    the air-quality sample at position [j], both of timestamp [t]. *)
Definition row_of_samples (wh : weather_hourly) (ah : aqi_hourly) (i j : nat)
                          (t : Z) (r : hourly_row) : Prop :=
  w_time wh !! i = Some t /\
  temperature_2m wh !! i = Some (Temp r) /\
  relativehumidity_2m wh !! i = Some (Humidity r) /\
  rain wh !! i = Some (Rain r) /\
  windspeed_10m wh !! i = Some (Wind r) /\
  a_time ah !! j = Some t /\
  us_aqi ah !! j = Some (AQI r).

(** Whether a timestamp occurs in a list of timestamps. *)
Definition has_time (times : list Z) (t : Z) : bool := existsb (Z.eqb t) times.

End Shapes.

(** ** Entries the loop of the advisory table can read *)

Module Entries.

(** An entry on which every [get] of the loop succeeds: an object whose
    ["recommendations"], if present, is an object. *)
Definition readable (rec : json) : bool :=
  match rec with
  | JObject fields =>
      match assoc "recommendations" fields with
      | None | Some (JObject _) => true
      | Some _ => false
      end
  | _ => false
  end.

End Entries.

(** ** More sample inputs *)

Module MoreSamples.
Import Pipeline PipelineExamples.

(** A network without connection, and one that answers every request. *)
Definition network_down {coord : Type} (r : Fetcher.request coord) : Fetcher.reply string :=
  Fetcher.TransportError "timeout".

Definition network_up {coord : Type} (r : Fetcher.request coord) : Fetcher.reply string :=
  match r with
  | Fetcher.Forecast _ _ => Fetcher.Response 200 (Some "weather"%string)
  | Fetcher.AirQuality _ _ => Fetcher.Response 200 (Some "air quality"%string)
  end.

(** A network that answers the weather request with status 304 and a body. *)
Definition network_not_modified {coord : Type} (r : Fetcher.request coord)
  : Fetcher.reply string :=
  match r with
  | Fetcher.Forecast _ _ => Fetcher.Response 304 (Some "weather"%string)
  | Fetcher.AirQuality _ _ => Fetcher.Response 200 (Some "air quality"%string)
  end.

Definition no_forecasts : ForecastCache.memo Z string :=
  {| ForecastCache.slots := []; ForecastCache.issued := [] |}.

(** A generative service that raises on its first invocation only. *)
Definition flaky_env : Advisory.environment :=
  {| Advisory.api_key := Some "key"%string;
     Advisory.generate_content :=
       fun n _ => match n with O => None | S _ => Some "[]"%string end;
     Advisory.json_loads := fun _ => Some (JArray []) |}.

(** No secret is configured. *)
Definition keyless_env : Advisory.environment :=
  {| Advisory.api_key := None;
     Advisory.generate_content := fun _ _ => Some "[]"%string;
     Advisory.json_loads := fun _ => Some (JArray []) |}.

(** Reading of the sample bodies and a serialization of the summary that
    keeps its keys. *)
Definition read_weather (b : string) : payload weather_hourly := Dict (Some weather_june1).
Definition read_aqi (b : string) : payload aqi_hourly := Dict (Some aqi_june1).

Definition keys_json (summary : list (string * summary_row)) : string :=
  String.concat "," (map fst summary).

Definition fresh_caches : Page.caches Z string :=
  {| Page.forecasts := no_forecasts; Page.advisories := Samples.no_cache |}.

End MoreSamples.

(* ===================================================================== *)
(** * Properties *)
(* ===================================================================== *)

Section Checks.
Import Calendar Pipeline PipelineExamples.

Example strftime_sample :
  strftime_Ymd (day_of (at_hour 2024 6 1 13)) = "2024-06-01"%string.
Proof. vm_compute. reflexivity. Qed.

Example june1_summary :
  exists h, process_data (Dict (Some weather_june1)) (Dict (Some aqi_june1)) =
    Frames h [("2024-06-01"%string,
               {| Temp_min := num 19; Temp_max := num 25;
                  Humidity_min := num 48; Humidity_max := num 60;
                  AQI_min := num 28; AQI_max := num 40;
                  Wind_mean := Some (40 # 4)%Q; Rain_sum := 3%Q |})].
Proof. eexists. vm_compute. reflexivity. Qed.

End Checks.

(** ** Formatted dates *)

Section Dates.
Import Calendar.

(** The date of a day count converts back to it, and has a month and a day
    of two digits, and a year of four digits in the representable range. *)
Lemma civil_round_trip (z : Z) :
  let '(y, m, d) := civil_from_days z in
  days_from_civil y m d = z /\ 1 <= m <= 12 /\ 1 <= d <= 31 /\
  (-106752 <= z <= 106751 -> 1600 <= y <= 2400).
Proof.
  unfold civil_from_days, days_from_civil.
  set (z' := z + 719468).
  set (era := z' / 146097).
  set (doe := z' - era * 146097).
  assert (Hdoe : 0 <= doe <= 146096) by (subst doe era; Z.div_mod_to_equations; lia).
  set (yoe := (doe - doe / 1460 + doe / 36524 - doe / 146096) / 365).
  assert (Hyoe : 0 <= yoe <= 399) by (subst yoe; Z.div_mod_to_equations; lia).
  set (doy := doe - (365 * yoe + yoe / 4 - yoe / 100)).
  assert (Hdoy : 0 <= doy <= 365) by (subst doy yoe; Z.div_mod_to_equations; lia).
  set (mp := (5 * doy + 2) / 153).
  assert (Hmp : 0 <= mp <= 11) by (subst mp; Z.div_mod_to_equations; lia).
  assert (Hera : -106752 <= z <= 106751 -> 4 <= era <= 5)
    by (intros ?; subst era z'; Z.div_mod_to_equations; lia).
  assert (Hd : 1 <= doy - (153 * mp + 2) / 5 + 1 <= 31)
    by (subst mp; Z.div_mod_to_equations; lia).
  destruct (Z.ltb_spec mp 10) as [Hlt|Hge].
  - destruct (Z.leb_spec (mp + 3) 2) as [?|_]; [lia|].
    destruct (Z.gtb_spec (mp + 3) 2) as [_|?]; [|lia].
    replace (mp + 3 - 3) with mp by lia.
    replace ((yoe + era * 400) / 400) with era by (Z.div_mod_to_equations; lia).
    replace (yoe + era * 400 - era * 400) with yoe by lia.
    repeat split; lia.
  - destruct (Z.leb_spec (mp - 9) 2) as [_|?]; [|lia].
    destruct (Z.gtb_spec (mp - 9) 2) as [?|_]; [lia|].
    replace (mp - 9 + 9) with mp by lia.
    replace (yoe + era * 400 + 1 - 1) with (yoe + era * 400) by lia.
    replace ((yoe + era * 400) / 400) with era by (Z.div_mod_to_equations; lia).
    replace (yoe + era * 400 - era * 400) with yoe by lia.
    repeat split; lia.
Qed.

Lemma digit_inj (a b : Z) : digit a = digit b -> a mod 10 = b mod 10.
Proof.
  unfold digit. intros H. apply (f_equal nat_of_ascii) in H.
  pose proof (Z.mod_pos_bound a 10 ltac:(lia)).
  pose proof (Z.mod_pos_bound b 10 ltac:(lia)).
  rewrite !nat_ascii_embedding in H by lia. lia.
Qed.

Lemma pad2_inj (a b : Z) : 0 <= a < 100 -> 0 <= b < 100 -> pad2 a = pad2 b -> a = b.
Proof.
  unfold pad2. intros Ha Hb H. injection H as H1 H2.
  apply digit_inj in H1, H2. Z.div_mod_to_equations. lia.
Qed.

Lemma pad4_inj (a b : Z) : 0 <= a < 10000 -> 0 <= b < 10000 -> pad4 a = pad4 b -> a = b.
Proof.
  unfold pad4, pad2. intros Ha Hb H. injection H as H1 H2 H3 H4.
  apply digit_inj in H1, H2, H3, H4. Z.div_mod_to_equations. lia.
Qed.

(** Two days of the representable range have different texts. *)
Lemma strftime_Ymd_inj (d1 d2 : Z) :
  -106752 <= d1 <= 106751 -> -106752 <= d2 <= 106751 ->
  strftime_Ymd d1 = strftime_Ymd d2 -> d1 = d2.
Proof.
  intros H1 H2. unfold strftime_Ymd.
  pose proof (civil_round_trip d1) as R1. pose proof (civil_round_trip d2) as R2.
  destruct (civil_from_days d1) as [[y1 m1] dd1], (civil_from_days d2) as [[y2 m2] dd2].
  destruct R1 as (E1 & Hm1 & Hd1 & Hy1), R2 as (E2 & Hm2 & Hd2 & Hy2).
  specialize (Hy1 H1). specialize (Hy2 H2).
  intros H. unfold pad4, pad2 in H. cbn [String.append] in H.
  injection H as h1 h2 h3 h4 h5 h6 h7 h8.
  assert (y1 = y2).
  { apply pad4_inj; [lia|lia|]. unfold pad4, pad2. congruence. }
  assert (m1 = m2).
  { apply pad2_inj; [lia|lia|]. unfold pad2. congruence. }
  assert (dd1 = dd2).
  { apply pad2_inj; [lia|lia|]. unfold pad2. congruence. }
  congruence.
Qed.

Lemma representable_day (t : Z) :
  representable t -> -106752 <= day_of t <= 106751.
Proof.
  unfold representable, day_of. intros [Hlo Hhi].
  assert (Hpos : 0 < ns_per_day) by (unfold ns_per_day; lia).
  pose proof (Z.div_le_mono _ _ ns_per_day Hpos Hlo) as H1.
  pose proof (Z.div_le_mono t (2 ^ 63) ns_per_day Hpos ltac:(lia)) as H2.
  change (- 2 ^ 63 / ns_per_day) with (-106752) in H1.
  change (2 ^ 63 / ns_per_day) with 106751 in H2.
  lia.
Qed.

End Dates.

(** ** Aggregation functions *)

Section Aggregates.
Import Pipeline PipelineSpec.

Lemma Qmin_cases (x y : Q) : Qmin x y = x \/ Qmin x y = y.
Proof.
  unfold Qmin, GenericMinMax.gmin. destruct (x ?= y)%Q; auto.
Qed.

Lemma Qmax_cases (x y : Q) : Qmax x y = x \/ Qmax x y = y.
Proof.
  unfold Qmax, GenericMinMax.gmax. destruct (x ?= y)%Q; auto.
Qed.

Lemma fold_min_least (xs : list Q) : forall x,
  In (fold_left Qmin xs x) (x :: xs) /\
  forall y, In y (x :: xs) -> (fold_left Qmin xs x <= y)%Q.
Proof.
  induction xs as [|z xs IH]; intros x; simpl.
  - split; [auto|]. intros y [<-|[]]. apply Qle_refl.
  - destruct (IH (Qmin x z)) as [Hin Hle]. split.
    + destruct Hin as [Heq|Hin]; [|auto].
      rewrite <- Heq. destruct (Qmin_cases x z) as [->| ->]; auto.
    + assert (Hm : (fold_left Qmin xs (Qmin x z) <= Qmin x z)%Q)
        by (apply Hle; left; reflexivity).
      intros y [<-|[<-|Hy]].
      * eapply Qle_trans; [exact Hm|apply Q.le_min_l].
      * eapply Qle_trans; [exact Hm|apply Q.le_min_r].
      * apply Hle. right. exact Hy.
Qed.

Lemma fold_max_greatest (xs : list Q) : forall x,
  In (fold_left Qmax xs x) (x :: xs) /\
  forall y, In y (x :: xs) -> (y <= fold_left Qmax xs x)%Q.
Proof.
  induction xs as [|z xs IH]; intros x; simpl.
  - split; [auto|]. intros y [<-|[]]. apply Qle_refl.
  - destruct (IH (Qmax x z)) as [Hin Hle]. split.
    + destruct Hin as [Heq|Hin]; [|auto].
      rewrite <- Heq. destruct (Qmax_cases x z) as [->| ->]; auto.
    + assert (Hm : (Qmax x z <= fold_left Qmax xs (Qmax x z))%Q)
        by (apply Hle; left; reflexivity).
      intros y [<-|[<-|Hy]].
      * eapply Qle_trans; [apply Q.le_max_l|exact Hm].
      * eapply Qle_trans; [apply Q.le_max_r|exact Hm].
      * apply Hle. right. exact Hy.
Qed.

Lemma agg_min_spec (vals : list (option Q)) : is_min_of (present vals) (agg_min vals).
Proof.
  unfold agg_min. destruct (present vals) as [|x xs]; simpl; [reflexivity|].
  apply fold_min_least.
Qed.

Lemma agg_max_spec (vals : list (option Q)) : is_max_of (present vals) (agg_max vals).
Proof.
  unfold agg_max. destruct (present vals) as [|x xs]; simpl; [reflexivity|].
  apply fold_max_greatest.
Qed.

Lemma fold_plus_Qsum (xs : list Q) : forall a,
  (fold_left Qplus xs a == a + Qsum xs)%Q.
Proof.
  induction xs as [|x xs IH]; intros a; simpl.
  - ring.
  - rewrite IH. ring.
Qed.

Lemma agg_sum_spec (vals : list (option Q)) : (agg_sum vals == Qsum (present vals))%Q.
Proof. unfold agg_sum. rewrite fold_plus_Qsum. ring. Qed.

Lemma agg_mean_missing (vals : list (option Q)) :
  agg_mean vals = None <-> present vals = [].
Proof.
  unfold agg_mean. destruct (present vals) as [|x xs]; split; try reflexivity; discriminate.
Qed.

Lemma agg_sum_nothing (vals : list (option Q)) :
  present vals = [] -> agg_sum vals = 0%Q.
Proof. unfold agg_sum. intros ->. reflexivity. Qed.

Lemma agg_range (vals : list (option Q)) : range_ok (agg_min vals) (agg_max vals).
Proof.
  pose proof (agg_min_spec vals) as Hmin. pose proof (agg_max_spec vals) as Hmax.
  unfold agg_min, agg_max in *. destruct (present vals) as [|x xs]; simpl in *; [exact I|].
  destruct Hmin as [_ Hmin]. destruct Hmax as [Hin _]. apply Hmin, Hin.
Qed.

Lemma Qsum_nonneg (xs : list Q) :
  (forall x, In x xs -> (0 <= x)%Q) -> (0 <= Qsum xs)%Q.
Proof.
  induction xs as [|x xs IH]; intros H; simpl.
  - apply Qle_refl.
  - replace 0%Q with (0 + 0)%Q by reflexivity.
    apply Qplus_le_compat; [apply H; left; reflexivity|].
    apply IH. intros y Hy. apply H. right. exact Hy.
Qed.

Lemma present_In (vals : list (option Q)) (x : Q) :
  In x (present vals) <-> In (Some x) vals.
Proof.
  induction vals as [|[v|] vals IH]; simpl; [tauto| |].
  - rewrite IH. split; intros [H|H]; auto; left; congruence.
  - rewrite IH. split; [auto|intros [H|H]; [discriminate|exact H]].
Qed.

End Aggregates.

(** ** Day bins *)

Section Bins.
Import Calendar Pipeline PipelineSpec.

Lemma on_date_day_of (d t : Z) : on_date d t <-> day_of t = d.
Proof.
  unfold on_date, day_of.
  assert (Hpos : 0 < ns_per_day) by (unfold ns_per_day; lia).
  pose proof (Z.div_mod t ns_per_day ltac:(lia)) as Hdm.
  pose proof (Z.mod_pos_bound t ns_per_day Hpos) as Hb.
  split; intros H; [|subst d; lia].
  generalize dependent (t mod ns_per_day). generalize dependent (t / ns_per_day).
  intros q r Heq Hr. nia.
Qed.

Lemma on_dateb_spec (d t : Z) : on_dateb d t = (day_of t =? d).
Proof.
  unfold on_dateb. destruct (Z.eqb_spec (day_of t) d) as [E|E].
  - apply on_date_day_of in E. unfold on_date in E.
    apply andb_true_iff. split; [apply Z.leb_le|apply Z.ltb_lt]; lia.
  - destruct ((d * ns_per_day <=? t) && (t <? (d + 1) * ns_per_day)) eqn:B; [|reflexivity].
    apply andb_true_iff in B as [B1 B2].
    apply Z.leb_le in B1. apply Z.ltb_lt in B2.
    exfalso. apply E, on_date_day_of. split; assumption.
Qed.

Lemma values_on_bin (col : hourly_row -> option Q) (d : Z) (df : list (Z * hourly_row)) :
  values_on col d df = present (map col (bin d df)).
Proof.
  unfold bin. induction df as [|[t r] df IH]; simpl; [reflexivity|].
  rewrite on_dateb_spec. destruct (day_of t =? d); simpl; [|exact IH].
  destruct (col r); rewrite IH; reflexivity.
Qed.

Lemma aggregate_spec (d : Z) (df : list (Z * hourly_row)) :
  daily_row_spec df d (aggregate (bin d df)).
Proof.
  split; simpl; rewrite values_on_bin;
    auto using agg_min_spec, agg_max_spec, agg_mean_missing, agg_sum_nothing.
Qed.

Lemma fold_min_lower (ts : list Z) : forall t,
  In (fold_right Z.min t ts) (t :: ts) /\
  forall u, In u (t :: ts) -> fold_right Z.min t ts <= u.
Proof.
  induction ts as [|a ts IH]; intros t; simpl.
  - split; [auto|]. intros u [<-|[]]. lia.
  - destruct (IH t) as [Hin Hle]. split.
    + destruct (Z.min_spec a (fold_right Z.min t ts)) as [[_ ->]|[_ ->]]; [auto|].
      destruct Hin as [H|H]; auto.
    + intros u [<-|[<-|Hu]].
      * specialize (Hle t (or_introl eq_refl)). lia.
      * lia.
      * specialize (Hle u (or_intror Hu)). lia.
Qed.

Lemma fold_max_upper (ts : list Z) : forall t,
  In (fold_right Z.max t ts) (t :: ts) /\
  forall u, In u (t :: ts) -> u <= fold_right Z.max t ts.
Proof.
  induction ts as [|a ts IH]; intros t; simpl.
  - split; [auto|]. intros u [<-|[]]. lia.
  - destruct (IH t) as [Hin Hle]. split.
    + destruct (Z.max_spec a (fold_right Z.max t ts)) as [[_ ->]|[_ ->]]; [|auto].
      destruct Hin as [H|H]; auto.
    + intros u [<-|[<-|Hu]].
      * specialize (Hle t (or_introl eq_refl)). lia.
      * lia.
      * specialize (Hle u (or_intror Hu)). lia.
Qed.

Lemma in_times (df : list (Z * hourly_row)) (t : Z) :
  In t (map fst df) -> exists r, In (t, r) df.
Proof.
  intros H. apply in_map_iff in H as [[t' r] [E H]]. simpl in E. subst. eauto.
Qed.

(** The labels of a non-empty table run from its earliest date to its latest. *)
Lemma day_labels_range (df : list (Z * hourly_row)) :
  df <> [] ->
  exists first last,
    earliest_date df first /\ latest_date df last /\
    day_labels (map fst df) = seqZ first (last - first + 1).
Proof.
  intros Hne. destruct df as [|[t0 r0] df]; [congruence|]. clear Hne.
  simpl map. unfold day_labels.
  set (times := map fst df).
  destruct (fold_min_lower times t0) as [Hmin_in Hmin].
  destruct (fold_max_upper times t0) as [Hmax_in Hmax].
  exists (day_of (fold_right Z.min t0 times)), (day_of (fold_right Z.max t0 times)).
  assert (Hdom : forall u, In u (t0 :: times) -> exists r, In (u, r) ((t0, r0) :: df)).
  { intros u Hu. apply (in_times ((t0, r0) :: df)). exact Hu. }
  assert (Hcod : forall t r, In (t, r) ((t0, r0) :: df) -> In t (t0 :: times)).
  { intros t r H. change (t0 :: times) with (map fst ((t0, r0) :: df)).
    apply in_map_iff. exists (t, r). auto. }
  split; [|split; [|reflexivity]].
  - split.
    + destruct (Hdom _ Hmin_in) as [r Hr]. exists (fold_right Z.min t0 times), r.
      split; [exact Hr|]. apply on_date_day_of. reflexivity.
    + intros t r H. specialize (Hmin t (Hcod _ _ H)).
      pose proof (proj2 (on_date_day_of _ (fold_right Z.min t0 times)) eq_refl) as [Hlo _].
      lia.
  - split.
    + destruct (Hdom _ Hmax_in) as [r Hr]. exists (fold_right Z.max t0 times), r.
      split; [exact Hr|]. apply on_date_day_of. reflexivity.
    + intros t r H. specialize (Hmax t (Hcod _ _ H)).
      pose proof (proj2 (on_date_day_of _ (fold_right Z.max t0 times)) eq_refl) as [_ Hhi].
      lia.
Qed.

Lemma Forall2_map_self {A B} (P : A -> B -> Prop) (f : A -> B) (l : list A) :
  (forall x, P x (f x)) -> Forall2 P l (map f l).
Proof. intros H. induction l; simpl; constructor; auto. Qed.

End Bins.

(** ** Frames and the inner join *)

Section Join.
Import Calendar Pipeline PipelineSpec.

Lemma map_fst_combine {A B} (l : list A) (l' : list B) :
  length l' = length l -> map fst (combine l l') = l.
Proof.
  revert l'. induction l as [|x l IH]; intros [|y l'] H; simpl in *; try congruence.
  f_equal. apply IH. congruence.
Qed.

Lemma weather_frame_times (h : weather_hourly) (df : list (Z * weather_row)) :
  weather_frame h = Some df -> map fst df = w_time h.
Proof.
  unfold weather_frame. intros H.
  destruct (_ && _) eqn:B in H; [|discriminate]. injection H as <-.
  repeat (apply andb_true_iff in B as [B ?]).
  repeat match goal with H : (_ =? _)%nat = true |- _ => apply Nat.eqb_eq in H end.
  rewrite map_map.
  set (cols := combine (temperature_2m h) _).
  assert (Hlen : length cols = length (w_time h)).
  { unfold cols. rewrite !length_combine. lia. }
  clearbody cols. generalize dependent (w_time h). intros times _ _ _ _.
  revert cols. induction times as [|t ts IH]; intros [|[te [hu [ra wi]]] cols] Hlen;
    simpl in *; try congruence.
  f_equal. apply IH. congruence.
Qed.

Lemma aqi_frame_times (h : aqi_hourly) (df : list (Z * option Q)) :
  aqi_frame h = Some df -> map fst df = a_time h.
Proof.
  unfold aqi_frame. intros H.
  destruct (_ =? _)%nat eqn:B in H; [|discriminate]. injection H as <-.
  apply Nat.eqb_eq in B. apply map_fst_combine. exact B.
Qed.

Lemma weather_frame_of_rows (rows : list (Z * weather_row)) :
  weather_frame (weather_of_rows rows) = Some rows.
Proof.
  unfold weather_frame, weather_of_rows. simpl.
  rewrite !length_map, !Nat.eqb_refl. simpl. f_equal.
  induction rows as [|[t [te hu ra wi]] rows IH]; simpl; [reflexivity|].
  f_equal. exact IH.
Qed.

Lemma aqi_frame_of_rows (rows : list (Z * option Q)) :
  aqi_frame (aqi_of_rows rows) = Some rows.
Proof.
  unfold aqi_frame, aqi_of_rows. simpl.
  rewrite !length_map, Nat.eqb_refl.
  f_equal. induction rows as [|[t q] rows IH]; simpl; [reflexivity|].
  f_equal. exact IH.
Qed.

Lemma join_inner_times (w : list (Z * weather_row)) (a : list (Z * option Q)) (t : Z) :
  In t (map fst (join_inner w a)) <-> In t (map fst w) /\ In t (map fst a).
Proof.
  unfold join_inner. rewrite !in_map_iff. split.
  - intros [[t' r] [E H]]. simpl in E. subst t'.
    apply in_flat_map in H as [wr [Hw H]].
    apply in_map_iff in H as [ar [E H]]. injection E as E _.
    apply filter_In in H as [Ha Heq]. apply Z.eqb_eq in Heq.
    split; [exists wr|exists ar]; split; auto; congruence.
  - intros [[wr [Ew Hw]] [ar [Ea Ha]]].
    exists (t, join_row (snd wr) (snd ar)). split; [reflexivity|].
    apply in_flat_map. exists wr. split; [exact Hw|].
    apply in_map_iff. exists ar. split; [congruence|].
    apply filter_In. split; [exact Ha|]. apply Z.eqb_eq. congruence.
Qed.

Lemma filter_no_match {A} (t : Z) (a : list (Z * A)) :
  ~ In t (map fst a) -> List.filter (fun ar => fst ar =? t) a = [].
Proof.
  induction a as [|ar a IH]; simpl; intros H; [reflexivity|].
  destruct (Z.eqb_spec (fst ar) t) as [E|E]; [tauto|]. apply IH. tauto.
Qed.

(** Weather rows whose timestamp has no air-quality sample add nothing to the
    join. *)
Lemma join_inner_drop_left (t : Z) (w : list (Z * weather_row)) (a : list (Z * option Q)) :
  ~ In t (map fst a) -> join_inner (without_time t w) a = join_inner w a.
Proof.
  intros Hnot. unfold join_inner, without_time.
  induction w as [|wr w IH]; simpl; [reflexivity|].
  destruct (Z.eqb_spec (fst wr) t) as [E|E]; simpl.
  - rewrite E, (filter_no_match t a Hnot). simpl. exact IH.
  - rewrite IH. reflexivity.
Qed.

(** Air-quality rows whose timestamp has no weather sample add nothing either. *)
Lemma join_inner_drop_right (t : Z) (w : list (Z * weather_row)) (a : list (Z * option Q)) :
  ~ In t (map fst w) -> join_inner w (without_time t a) = join_inner w a.
Proof.
  intros Hnot. unfold join_inner, without_time.
  induction w as [|wr w IH]; simpl; [reflexivity|].
  simpl in Hnot. rewrite IH by tauto. f_equal. f_equal.
  assert (Hne : fst wr <> t) by tauto. clear -Hne.
  induction a as [|ar a IHa]; simpl; [reflexivity|].
  destruct (Z.eqb_spec (fst ar) t) as [E|E]; simpl.
  - destruct (Z.eqb_spec (fst ar) (fst wr)) as [E'|E']; [congruence|exact IHa].
  - rewrite IHa. reflexivity.
Qed.

(** What a pair of frames tells about the call that returned it. *)
Lemma process_data_frames_inv wd ad hourly summary :
  process_data wd ad = Frames hourly summary ->
  exists wh ah wdf adf,
    wd = Dict (Some wh) /\ ad = Dict (Some ah) /\
    weather_frame wh = Some wdf /\ aqi_frame ah = Some adf /\
    hourly = join_inner wdf adf /\ summary = resample_daily hourly.
Proof.
  unfold process_data.
  destruct wd as [| |[wh|]], ad as [| |[ah|]]; simpl; try discriminate.
  - destruct (weather_frame wh) as [wdf|] eqn:Ew; [|discriminate].
    destruct (aqi_frame ah) as [adf|] eqn:Ea; [|discriminate].
    intros H. injection H as <- <-. exists wh, ah, wdf, adf. auto 10.
  - destruct (weather_frame wh); discriminate.
Qed.

(** Two payloads with arrays of equal lengths always yield a pair of frames. *)
Lemma process_data_total (wrows : list (Z * weather_row)) (arows : list (Z * option Q)) :
  process_data (Dict (Some (weather_of_rows wrows))) (Dict (Some (aqi_of_rows arows))) =
  Frames (join_inner wrows arows) (resample_daily (join_inner wrows arows)).
Proof.
  unfold process_data. simpl.
  rewrite weather_frame_of_rows, aqi_frame_of_rows. reflexivity.
Qed.

End Join.

(** ** The aggregation pipeline *)

Section PipelineClaims.
Import Calendar Pipeline PipelineSpec PipelineExamples.




(** C2 (as worded, refuted): two samples two days apart with a rain reading
    of -1 give a row whose rain sum is negative, and a row (the day in
    between) whose minimum and maximum are missing, so that their comparison
    does not hold. *)
Lemma negative_rain_and_missing_range :
  exists hourly summary,
    process_data (Dict (Some weather_negative_rain)) (Dict (Some aqi_gap)) =
      Frames hourly summary /\
    (exists key row, In (key, row) summary /\ ~ (0 <= Rain_sum row)%Q) /\
    (exists key row, In (key, row) summary /\ ~ cell_le (Temp_min row) (Temp_max row)) /\
    ~ Forall (fun kr => row_invariant (snd kr)) summary.
Proof.
  eexists _, _. split; [vm_compute; reflexivity|].
  assert (Hneg : ~ (0 <= -1)%Q) by (intros H; vm_compute in H; auto).
  split; [|split].
  - eexists _, _. split; [left; reflexivity|]. exact Hneg.
  - eexists _, _. split; [right; left; reflexivity|]. simpl. tauto.
  - intros H. apply Forall_inv in H. destruct H as (_ & _ & _ & H). exact (Hneg H).
Qed.

(** C2 (amended): in every daily row returned by [process_data], the minimum
    and maximum of temperature, of humidity and of AQI are either both
    present with minimum <= maximum or both missing; and the rain sum is >= 0
    whenever no rain value of the hourly table is negative. *)
Theorem daily_rows_ordered wd ad hourly summary key row :
  process_data wd ad = Frames hourly summary ->
  In (key, row) summary ->
  range_ok (Temp_min row) (Temp_max row) /\
  range_ok (Humidity_min row) (Humidity_max row) /\
  range_ok (AQI_min row) (AQI_max row) /\
  ((forall t r x, In (t, r) hourly -> Rain r = Some x -> (0 <= x)%Q) ->
   (0 <= Rain_sum row)%Q).
Proof.
  intros Hrun Hin.
  apply process_data_frames_inv in Hrun as (wh & ah & wdf & adf & _ & _ & _ & _ & _ & ->).
  unfold resample_daily in Hin. apply in_map_iff in Hin as (d & E & _).
  injection E as _ <-. simpl.
  repeat split; try apply agg_range.
  intros Hrain. rewrite agg_sum_spec. apply Qsum_nonneg.
  intros x Hx. apply present_In, in_map_iff in Hx as (r & Hr & Hin).
  unfold bin in Hin. apply in_map_iff in Hin as ([t r'] & Er & Hin). simpl in Er. subst r'.
  apply filter_In in Hin as [Hin _]. eapply Hrain; eauto.
Qed.

Lemma daily_rows_ordered_witness :
  exists hourly summary key row,
    process_data (Dict (Some weather_june1)) (Dict (Some aqi_june1)) = Frames hourly summary /\
    In (key, row) summary /\
    range_ok (Temp_min row) (Temp_max row) /\
    range_ok (Humidity_min row) (Humidity_max row) /\
    range_ok (AQI_min row) (AQI_max row) /\
    (0 <= Rain_sum row)%Q.
Proof.
  eexists _, _, _, _. split; [vm_compute; reflexivity|].
  split; [left; reflexivity|].
  destruct (daily_rows_ordered (Dict (Some weather_june1)) (Dict (Some aqi_june1))
              _ _ _ _ eq_refl (or_introl eq_refl)) as (Ht & Hh & Ha & Hr).
  repeat split; [exact Ht|exact Hh|exact Ha|].
  apply Hr. intros t r x [E|[E|[E|[E|[]]]]] Hx;
    injection E as <- <-; injection Hx as <-; discriminate.
Defined.

(** C3: the hourly table returned by [process_data] holds exactly the
    timestamps found in both the weather and the air-quality series; the
    daily summary is computed from the hourly table alone, and removing from
    either input the samples of a timestamp that the other series lacks
    changes neither table. *)
Theorem hourly_table_is_inner_join wh ah hourly summary :
  process_data (Dict (Some wh)) (Dict (Some ah)) = Frames hourly summary ->
  (forall t, In t (map fst hourly) <-> In t (w_time wh) /\ In t (a_time ah)) /\
  summary = resample_daily hourly /\
  (forall t, ~ In t (a_time ah) ->
     ~ In t (map fst hourly) /\
     process_data (Dict (Some (drop_weather_time t wh))) (Dict (Some ah)) =
       Frames hourly summary) /\
  (forall t, ~ In t (w_time wh) ->
     ~ In t (map fst hourly) /\
     process_data (Dict (Some wh)) (Dict (Some (drop_aqi_time t ah))) =
       Frames hourly summary).
Proof.
  intros Hrun.
  apply process_data_frames_inv in Hrun
    as (wh' & ah' & wdf & adf & Ew & Ea & Hwf & Haf & -> & ->).
  injection Ew as <-. injection Ea as <-.
  pose proof (weather_frame_times _ _ Hwf) as Hwt.
  pose proof (aqi_frame_times _ _ Haf) as Hat.
  assert (Hmem : forall t, In t (map fst (join_inner wdf adf)) <->
                           In t (w_time wh) /\ In t (a_time ah)).
  { intros t. rewrite join_inner_times, Hwt, Hat. reflexivity. }
  split; [exact Hmem|]. split; [reflexivity|]. split.
  - intros t Hnot. split; [rewrite Hmem; tauto|].
    unfold drop_weather_time. rewrite Hwf. unfold process_data. simpl.
    rewrite weather_frame_of_rows, Haf.
    rewrite join_inner_drop_left by (rewrite Hat; exact Hnot). reflexivity.
  - intros t Hnot. split; [rewrite Hmem; tauto|].
    unfold drop_aqi_time. rewrite Haf. unfold process_data. simpl.
    rewrite Hwf, aqi_frame_of_rows.
    rewrite join_inner_drop_right by (rewrite Hwt; exact Hnot). reflexivity.
Qed.

Lemma hourly_table_is_inner_join_witness :
  exists hourly summary,
    process_data (Dict (Some weather_five)) (Dict (Some aqi_four)) = Frames hourly summary /\
    map fst hourly = map (at_hour 2024 6 1) [0; 1; 3; 4] /\
    ~ In (at_hour 2024 6 1 2) (map fst hourly) /\
    process_data (Dict (Some (drop_weather_time (at_hour 2024 6 1 2) weather_five)))
                 (Dict (Some aqi_four)) = Frames hourly summary.
Proof.
  destruct (process_data (Dict (Some weather_five)) (Dict (Some aqi_four)))
    as [|hourly summary|e] eqn:Hrun;
    [vm_compute in Hrun; discriminate| |vm_compute in Hrun; discriminate].
  exists hourly, summary. split; [reflexivity|].
  destruct (hourly_table_is_inner_join weather_five aqi_four hourly summary Hrun)
    as (_ & _ & Hdrop & _).
  assert (Hmiss : ~ In (at_hour 2024 6 1 2) (a_time aqi_four)).
  { vm_compute. intros [H|[H|[H|[H|[]]]]]; discriminate H. }
  destruct (Hdrop _ Hmiss) as [Habsent Hsame].
  split; [|split; [exact Habsent|exact Hsame]].
  vm_compute in Hrun. injection Hrun as <- _. vm_compute. reflexivity.
Defined.

(** C4 (as worded, refuted): a weather response that is present but carries
    no samples is not answered with the no-data outcome; [process_data]
    builds (empty) tables from it. *)
Lemma no_samples_is_not_no_data :
  samples_weather (Dict (Some weather_no_samples)) = 0%nat /\
  process_data (Dict (Some weather_no_samples)) (Dict (Some aqi_june1)) = Frames [] [] /\
  process_data (Dict (Some weather_no_samples)) (Dict (Some aqi_june1)) <> NoData.
Proof.
  split; [reflexivity|]. split; [reflexivity|]. discriminate.
Qed.

(** C4 (amended): [process_data] returns the no-data outcome (a pair of
    [None], not an exception) exactly when one of its two arguments is falsy,
    that is [None] or an empty object. *)
Theorem no_data_iff_falsy wd ad :
  process_data wd ad = NoData <-> truthy wd = false \/ truthy ad = false.
Proof.
  unfold process_data.
  destruct wd as [| |[wh|]], ad as [| |[ah|]]; simpl;
    try (split; [auto|reflexivity]);
    try (split; [discriminate|intros [?|?]; discriminate]).
  - destruct (weather_frame wh); [destruct (aqi_frame ah)|];
      (split; [discriminate|intros [?|?]; discriminate]).
  - destruct (weather_frame wh); (split; [discriminate|intros [?|?]; discriminate]).
Qed.

End PipelineClaims.

(** ** The forecast fetcher *)

Section FetcherClaims.
Import Fetcher Samples.
Context {coord body : Type}.

Lemma get_json_fails (r : reply body) :
  request_fails r -> exists e, get_json r = inl e.
Proof.
  destruct r as [cause|status_code json]; simpl; intros H; [eauto|].
  unfold raises_for_status.
  replace (400 <=? status_code) with true by (symmetry; apply Z.leb_le; lia).
  replace (status_code <? 600) with true by (symmetry; apply Z.ltb_lt; lia).
  simpl. eauto.
Qed.

(** C8: for every pair of coordinates and every behaviour of the network,
    [fetch_forecast_data] returns either both decoded responses or the pair
    [(None, None)] with one reported failure, never one response without the
    other; whenever one of the two requests fails in transport or with an
    error status, it returns [(None, None)]. *)
Theorem fetch_is_all_or_nothing (network : request coord -> reply body) (lat lon : coord) :
  let out := fetch_forecast_data network lat lon in
  ((exists e, returned out = (None, None) /\ reported out = [failure_message e]) \/
   (exists weather_data aqi_data,
      returned out = (Some weather_data, Some aqi_data) /\ reported out = [] /\
      get_json (network (Forecast lat lon)) = inr weather_data /\
      get_json (network (AirQuality lat lon)) = inr aqi_data)) /\
  (request_fails (network (Forecast lat lon)) \/
   request_fails (network (AirQuality lat lon)) ->
   returned out = (None, None)).
Proof.
  unfold fetch_forecast_data. split.
  - destruct (get_json (network (Forecast lat lon))) as [e|w]; simpl; [eauto|].
    destruct (get_json (network (AirQuality lat lon))) as [e|a]; simpl; [eauto|].
    right. exists w, a. auto.
  - intros [H|H]; apply get_json_fails in H as [e He].
    + rewrite He. reflexivity.
    + destruct (get_json (network (Forecast lat lon))); [reflexivity|].
      rewrite He. reflexivity.
Qed.

End FetcherClaims.

Section FetcherSamples.
Import Fetcher Samples.

Lemma fetch_is_all_or_nothing_witness :
  returned (fetch_forecast_data network_aqi_down (1297 # 100) (7759 # 100)) = (None, None).
Proof.
  apply (fetch_is_all_or_nothing network_aqi_down (1297 # 100) (7759 # 100)).
  right. simpl. lia.
Defined.

Example fetch_both :
  returned (fetch_forecast_data network_ok (1297 # 100) (7759 # 100))
  = (Some "weather"%string, Some "air quality"%string).
Proof. reflexivity. Qed.

Example fetch_aqi_down :
  returned (fetch_forecast_data network_aqi_down (1297 # 100) (7759 # 100)) = (None, None) /\
  reported (fetch_forecast_data network_aqi_down (1297 # 100) (7759 # 100))
  = [failure_message "HTTPError"].
Proof. split; reflexivity. Qed.

End FetcherSamples.

(** ** The site registry *)

Section RegistryClaims.
Import Registry Samples.
Context {number : Type} (float : string -> option number).

(** C5 (amended): in edit mode, "Save Changes" rejects coordinates only when
    their text is not a number. If the latitude text is not a number it
    reports "Invalid coordinates." and leaves registry, edit flag and file as
    they were; if the longitude text is not a number it reports the same and
    writes nothing to the file; two texts that are numbers are stored for the
    selected site and saved, whatever their range, and no other site
    changes. *)
Theorem save_changes_validates_text_only (s : session number)
    (selected_site lat_display lon_display : string) :
  edit_mode s = true ->
  is_Some (sites s !! selected_site) ->
  let out := save_changes float s selected_site lat_display lon_display in
  (float lat_display = None ->
     fst out = s /\ snd out = Error "Invalid coordinates.") /\
  (float lon_display = None ->
     snd out = Error "Invalid coordinates." /\ sites_file (fst out) = sites_file s) /\
  (forall lat lon, float lat_display = Some lat -> float lon_display = Some lon ->
     snd out = Success "Coordinates updated!" /\
     sites (fst out) !! selected_site = Some {| latitude := lat; longitude := lon |} /\
     (forall other, other <> selected_site -> sites (fst out) !! other = sites s !! other) /\
     sites_file (fst out) = Some (sites (fst out))).
Proof.
  intros Hedit [info Hinfo]. unfold save_changes. rewrite Hedit, Hinfo. simpl.
  split; [|split].
  - intros ->. auto.
  - intros Hlon. destruct (float lat_display); rewrite ?Hlon; simpl; auto.
  - intros lat lon -> ->. simpl. split; [reflexivity|]. split; [|split].
    + apply lookup_insert_eq.
    + intros other Hne. rewrite !lookup_insert_ne by congruence. reflexivity.
    + reflexivity.
Qed.

(** C6 (amended): "Add Site" with three non-empty texts whose coordinates
    are numbers succeeds for every name, whether or not the registry already
    has it: afterwards the name maps to the submitted coordinates (an
    existing site of that name is overwritten) and every other site is
    unchanged. *)
Theorem add_site_stores_under_any_name (s : session number)
    (new_site_name new_lat new_lon : string) (lat lon : number) :
  nonempty new_site_name = true -> nonempty new_lat = true -> nonempty new_lon = true ->
  float new_lat = Some lat -> float new_lon = Some lon ->
  let out := add_site float s new_site_name new_lat new_lon in
  snd out = Success ("Site '" ++ new_site_name ++ "' added for this session!") /\
  sites (fst out) !! new_site_name = Some {| latitude := lat; longitude := lon |} /\
  (forall other, other <> new_site_name -> sites (fst out) !! other = sites s !! other).
Proof.
  intros Hn Hla Hlo Hlat Hlon. unfold add_site. rewrite Hn, Hla, Hlo, Hlat, Hlon. simpl.
  split; [reflexivity|]. split.
  - apply lookup_insert_eq.
  - intros other Hne. apply lookup_insert_ne. congruence.
Qed.

(** C7: a "Save Changes" that succeeds leaves in the file the whole registry
    as it is after the edit, while "Add Site" never writes the file (and does
    not touch the edit flag): it changes the registry of the session only. *)
Theorem update_persists_add_does_not (s : session number)
    (selected_site lat_display lon_display message : string) :
  snd (save_changes float s selected_site lat_display lon_display) = Success message ->
  sites_file (fst (save_changes float s selected_site lat_display lon_display)) =
    Some (sites (fst (save_changes float s selected_site lat_display lon_display))) /\
  (forall (s0 : session number) (new_site_name new_lat new_lon : string),
     sites_file (fst (add_site float s0 new_site_name new_lat new_lon)) = sites_file s0 /\
     edit_mode (fst (add_site float s0 new_site_name new_lat new_lon)) = edit_mode s0).
Proof.
  intros Hok. split.
  - unfold save_changes in *.
    destruct (edit_mode s); simpl in *; [|discriminate].
    destruct (float lat_display); simpl in *; [|discriminate].
    destruct (sites s !! selected_site); simpl in *; [|discriminate].
    destruct (float lon_display); simpl in *; [reflexivity|discriminate].
  - intros s0 name la lo. unfold add_site.
    destruct (_ && _); [|auto].
    destruct (float la); [|auto]. destruct (float lo); auto.
Qed.

End RegistryClaims.

Section RegistrySamples.
Import Registry Samples.

Example decimal_samples :
  decimal "91.0" = Some 91%Q /\ decimal "77.59" = Some (7759 # 100) /\
  decimal "-12.5" = Some (-25 # 2) /\ decimal "north" = None /\ decimal "" = None.
Proof. repeat split; reflexivity. Qed.

(** C5 (as worded, refuted): latitude 91.0 lies outside [-90, 90], yet saving
    it for "Lakeview" succeeds: the registry and the file then hold 91.0, not
    the coordinates the site had before. *)
Lemma out_of_range_latitude_is_saved :
  let out := save_changes decimal editing "Lakeview" "91.0" "77.59" in
  ~ in_range 91 (7759 # 100) /\
  snd out = Success "Coordinates updated!" /\
  sites (fst out) !! "Lakeview"%string = Some {| latitude := 91%Q; longitude := 7759 # 100 |} /\
  sites (fst out) !! "Lakeview"%string <> sites editing !! "Lakeview"%string /\
  sites_file (fst out) = Some (sites (fst out)).
Proof.
  split; [|split; [|split; [|split]]].
  - intros [[_ H] _]. vm_compute in H. auto.
  - reflexivity.
  - vm_compute. reflexivity.
  - vm_compute. discriminate.
  - reflexivity.
Qed.

Lemma save_changes_validates_text_only_witness :
  fst (save_changes decimal editing "Lakeview" "north" "77.59") = editing /\
  snd (save_changes decimal editing "Lakeview" "north" "77.59") = Error "Invalid coordinates." /\
  sites (fst (save_changes decimal editing "Lakeview" "13.0" "77.6")) !! "Lakeview"%string =
    Some {| latitude := 13%Q; longitude := 388 # 5 |}.
Proof.
  destruct (save_changes_validates_text_only decimal editing "Lakeview" "north" "77.59"
              eq_refl (ex_intro _ lakeview eq_refl)) as (Hbad & _ & _).
  destruct (save_changes_validates_text_only decimal editing "Lakeview" "13.0" "77.6"
              eq_refl (ex_intro _ lakeview eq_refl)) as (_ & _ & Hgood).
  destruct (Hbad eq_refl) as [H1 H2].
  destruct (Hgood 13%Q (388 # 5) eq_refl eq_refl) as (_ & H3 & _).
  split; [exact H1|]. split; [exact H2|exact H3].
Defined.

(** C6 (as worded, refuted): adding a site under the name "Lakeview", which
    the registry already has, succeeds and replaces the coordinates of the
    existing site. *)
Lemma duplicate_name_overwrites :
  let out := add_site decimal editing "Lakeview" "1" "2" in
  sites editing !! "Lakeview"%string = Some lakeview /\
  snd out = Success "Site 'Lakeview' added for this session!" /\
  sites (fst out) !! "Lakeview"%string = Some {| latitude := 1%Q; longitude := 2%Q |} /\
  sites (fst out) !! "Lakeview"%string <> sites editing !! "Lakeview"%string.
Proof.
  split; [|split; [|split]].
  - vm_compute. reflexivity.
  - reflexivity.
  - vm_compute. reflexivity.
  - vm_compute. discriminate.
Qed.

Lemma add_site_stores_under_any_name_witness :
  snd (add_site decimal editing "Hilltop" "12.5" "77") =
    Success "Site 'Hilltop' added for this session!" /\
  sites (fst (add_site decimal editing "Hilltop" "12.5" "77")) !! "Hilltop"%string =
    Some {| latitude := 25 # 2; longitude := 77%Q |} /\
  sites (fst (add_site decimal editing "Hilltop" "12.5" "77")) !! "Lakeview"%string =
    sites editing !! "Lakeview"%string.
Proof.
  destruct (add_site_stores_under_any_name decimal editing "Hilltop" "12.5" "77"
              (25 # 2) 77%Q eq_refl eq_refl eq_refl eq_refl eq_refl) as (H1 & H2 & H3).
  split; [exact H1|]. split; [exact H2|]. apply H3. discriminate.
Defined.

Lemma update_persists_add_does_not_witness :
  sites_file (fst (save_changes decimal editing "Lakeview" "13.0" "77.6")) =
    Some (sites (fst (save_changes decimal editing "Lakeview" "13.0" "77.6"))) /\
  sites_file (fst (add_site decimal editing "Hilltop" "12.5" "77")) = sites_file editing.
Proof.
  destruct (update_persists_add_does_not decimal editing "Lakeview" "13.0" "77.6"
              "Coordinates updated!" eq_refl) as [H1 H2].
  split; [exact H1|]. apply H2.
Defined.

End RegistrySamples.

(** ** The cached advisory generator *)

Section AdvisoryClaims.
Import Advisory Samples.

Lemma regenerate_stores env st now key :
  cache (snd (regenerate env st now key)) !! key =
    Some {| stored_at := now; cached := fst (regenerate env st now key) |}.
Proof.
  unfold regenerate. destruct (generate env (invocations st) key) as [value n]. simpl.
  apply lookup_insert_eq.
Qed.

(** After any call the cache holds the returned value for the argument. *)
Lemma call_leaves_entry env st now key :
  exists e, cache (snd (get_health_recommendations env st now key)) !! key = Some e /\
            cached e = fst (get_health_recommendations env st now key).
Proof.
  unfold get_health_recommendations.
  destruct (cache st !! key) as [e|] eqn:E.
  - destruct (fresh e now); simpl.
    + exists e. auto.
    + eexists. split; [apply regenerate_stores|reflexivity].
  - eexists. split; [apply regenerate_stores|reflexivity].
Qed.

(** A call that had to generate stores its value at the time of the call, so
    the entry is fresh for the following hour. *)
Lemma fresh_after_generation env st t1 t2 key :
  cache st !! key = None -> t2 < t1 + ttl ->
  still_fresh (snd (get_health_recommendations env st t1 key)) key t2.
Proof.
  intros Hmiss Hlt. unfold get_health_recommendations. rewrite Hmiss.
  eexists. split; [apply regenerate_stores|]. simpl. exact Hlt.
Qed.

(** C9: when a call of the generator is followed, with no reload in between,
    by a call with the same serialized summary while the cached entry has not
    expired, the second call returns the value of the first one and leaves the
    state as it is: the generative service is not invoked again. *)
Theorem repeated_call_is_cached env st t1 t2 key :
  still_fresh (snd (get_health_recommendations env st t1 key)) key t2 ->
  fst (get_health_recommendations env (snd (get_health_recommendations env st t1 key)) t2 key)
    = fst (get_health_recommendations env st t1 key) /\
  snd (get_health_recommendations env (snd (get_health_recommendations env st t1 key)) t2 key)
    = snd (get_health_recommendations env st t1 key) /\
  invocations
    (snd (get_health_recommendations env (snd (get_health_recommendations env st t1 key)) t2 key))
    = invocations (snd (get_health_recommendations env st t1 key)).
Proof.
  intros (e & He & Hlt).
  destruct (call_leaves_entry env st t1 key) as (e' & He' & Hval).
  rewrite He in He'. injection He' as <-.
  set (st1 := snd (get_health_recommendations env st t1 key)) in *.
  assert (Hhit : get_health_recommendations env st1 t2 key = (cached e, st1)).
  { unfold get_health_recommendations at 1. rewrite He. unfold fresh.
    replace (t2 <? stored_at e + ttl) with true by (symmetry; apply Z.ltb_lt; exact Hlt).
    reflexivity. }
  rewrite Hhit. simpl. auto.
Qed.

Lemma repeated_call_is_cached_witness :
  fst (get_health_recommendations steady_env
         (snd (get_health_recommendations steady_env no_cache 0 "summary")) 3599 "summary")
    = Some (JArray advisory_response) /\
  invocations
    (snd (get_health_recommendations steady_env
            (snd (get_health_recommendations steady_env no_cache 0 "summary")) 3599 "summary"))
    = 1%nat.
Proof.
  destruct (repeated_call_is_cached steady_env no_cache 0 3599 "summary"
              (fresh_after_generation steady_env no_cache 0 3599 "summary" eq_refl eq_refl))
    as (H1 & _ & H3).
  split; [rewrite H1|rewrite H3]; reflexivity.
Defined.

(** X10: after "Reload Recommendations" has cleared the cache, the next call
    invokes the generative service again when a non-empty secret is
    configured, for whatever summary and however recent the cleared entries
    were. *)
Lemma reload_forces_generation env st text now key :
  api_key env = Some text ->
  text <> EmptyString ->
  invocations (snd (get_health_recommendations env (clear st) now key)) = S (invocations st).
Proof.
  intros Hkey Htext. unfold get_health_recommendations, clear. simpl.
  rewrite lookup_empty. unfold regenerate, generate. simpl. rewrite Hkey.
  destruct text as [|c text]; [contradiction|].
  destruct (generate_content env (invocations st) (prompt key)); reflexivity.
Qed.

(** X9: an entry stored an hour ago or earlier is not used: the call invokes
    the generative service again when a non-empty secret is configured. *)
Lemma expired_entry_forces_generation env st text e now key :
  api_key env = Some text ->
  text <> EmptyString ->
  cache st !! key = Some e -> stored_at e + ttl <= now ->
  invocations (snd (get_health_recommendations env st now key)) = S (invocations st).
Proof.
  intros Hkey Htext He Hold. unfold get_health_recommendations. rewrite He. unfold fresh.
  replace (now <? stored_at e + ttl) with false by (symmetry; apply Z.ltb_ge; exact Hold).
  unfold regenerate, generate. rewrite Hkey.
  destruct text as [|c text]; [contradiction|].
  destruct (generate_content env (invocations st) (prompt key)); reflexivity.
Qed.

End AdvisoryClaims.

(** ** The advisory table *)

Section RenderingClaims.
Import Rendering Samples.

Lemma append_rec_conforming (t : rec_table) (rec : json) :
  conforms rec = true -> append_rec t rec = Some (extended t [rec]).
Proof.
  destruct rec as [| | | | |fields]; simpl; try discriminate.
  unfold append_rec, extended, dict_get, day_text, advice_text, NA. simpl.
  destruct (assoc "day" fields) as [[]|]; simpl; try discriminate;
    (destruct (assoc "recommendations" fields) as [[| | | | |rfields]|]; simpl;
       try discriminate; [|reflexivity]);
    (destruct (assoc "children_and_elderly" rfields) as [[]|]; simpl; try discriminate;
     destruct (assoc "people_with_morbidities" rfields) as [[]|]; simpl; try discriminate;
     destruct (assoc "adults" rfields) as [[]|]; simpl; try discriminate; reflexivity).
Qed.

Lemma extended_app (t : rec_table) (rec : json) (recs : list json) :
  extended (extended t [rec]) recs = extended t (rec :: recs).
Proof. unfold extended. simpl. rewrite <- !app_assoc. reflexivity. Qed.

Lemma fold_conforming (recs : list json) : forall t,
  forallb conforms recs = true ->
  fold_left (fun acc rec => t' ← acc; append_rec t' rec) recs (Some t) = Some (extended t recs).
Proof.
  induction recs as [|rec recs IH]; intros t H; simpl in *.
  - unfold extended. simpl. rewrite !app_nil_r. destruct t; reflexivity.
  - apply andb_true_iff in H as [Hrec Hrecs].
    rewrite (append_rec_conforming t rec Hrec), (IH _ Hrecs). f_equal. apply extended_app.
Qed.

(** C10 (amended): for a response that is a non-empty list of entries of the
    declared schema, a table is displayed (no exception is raised); it has
    one row per entry, in order, indexed by the entry's day as it came, and
    each of the three audience columns holds the entry's text for that
    audience; an absent day or recommendation is shown as "N/A". Index and
    columns all have the length of the response. For the empty list no table
    is displayed but the warning. *)
Theorem advisory_table_rows (recs : list json) :
  forallb conforms recs = true ->
  (recs = [] -> render (Some (JArray recs)) = Warning) /\
  (recs <> [] ->
   exists t,
     render (Some (JArray recs)) = Table t /\
     index_dates t = map (fun r => JString (day_text r)) recs /\
     children_and_elderly t =
       map (fun r => JString (advice_text "children_and_elderly" r)) recs /\
     people_with_morbidities t =
       map (fun r => JString (advice_text "people_with_morbidities" r)) recs /\
     adults t = map (fun r => JString (advice_text "adults" r)) recs /\
     length (index_dates t) = length recs /\
     length (children_and_elderly t) = length recs /\
     length (people_with_morbidities t) = length recs /\
     length (adults t) = length recs).
Proof.
  intros Hok. split; [intros ->; reflexivity|].
  intros Hne. exists (extended empty_table recs). split.
  - unfold render, loop. rewrite (fold_conforming recs empty_table Hok).
    destruct recs; [congruence|reflexivity].
  - unfold extended. simpl. rewrite !length_map. auto 10.
Qed.

Lemma advisory_table_rows_witness :
  exists t,
    render (Some (JArray advisory_response)) = Table t /\
    index_dates t = [JString "2024-06-01"; JString "tomorrow"; JString "N/A"] /\
    adults t = [JString "Drink water."; JString "N/A"; JString "N/A"].
Proof.
  destruct (advisory_table_rows advisory_response eq_refl) as [_ H].
  destruct H as (t & Hr & Hi & _ & _ & Ha & _); [discriminate|].
  exists t. split; [exact Hr|]. split; [rewrite Hi|rewrite Ha]; reflexivity.
Defined.

(** C10 (as worded, refuted): the empty list is a response of the declared
    schema, and for it no table is displayed at all: the block shows the
    warning that no recommendations could be generated. *)
Lemma empty_response_shows_no_table :
  forallb conforms [] = true /\
  render (Some (JArray [])) = Warning /\
  forall t, render (Some (JArray [])) <> Table t.
Proof. split; [reflexivity|]. split; [reflexivity|discriminate]. Qed.

(** An empty response shows the warning, and an entry that is not an object
    makes the loop fail. *)
Example empty_response_warns : render (Some (JArray [])) = Warning.
Proof. reflexivity. Qed.

Example ill_typed_entry_crashes : render (Some (JArray [JString "2024-06-01"])) = Crash.
Proof. reflexivity. Qed.

End RenderingClaims.

(** ** More on the aggregation pipeline *)

Section PipelineOutcomes.
#[local] Set Warnings "-clear-no-such-hyp".
Import Calendar Pipeline PipelineSpec PipelineExamples Shapes.

Lemma weather_frame_aligned (h : weather_hourly) :
  (exists df, weather_frame h = Some df) <-> aligned_weather h.
Proof.
  unfold weather_frame, aligned_weather.
  destruct (_ && _) eqn:B.
  - split; [intros _|eauto].
    repeat (apply andb_true_iff in B as [B ?]).
    repeat match goal with H : (_ =? _)%nat = true |- _ => apply Nat.eqb_eq in H end.
    auto.
  - split; [intros [df H]; discriminate|].
    intros (H1 & H2 & H3 & H4). rewrite H1, H2, H3, H4, !Nat.eqb_refl in B. discriminate.
Qed.

Lemma aqi_frame_aligned (h : aqi_hourly) :
  (exists df, aqi_frame h = Some df) <-> aligned_aqi h.
Proof.
  unfold aqi_frame, aligned_aqi. destruct (_ =? _)%nat eqn:B.
  - apply Nat.eqb_eq in B. split; eauto.
  - apply Nat.eqb_neq in B. split; [intros [df H]; discriminate|tauto].
Qed.

(** X1: on responses of the documented shape, [process_data] raises
    [KeyError] when the weather object lacks ['hourly'], and when the weather
    arrays have one length and the air-quality object lacks ['hourly']; it
    raises [ValueError] when the weather arrays differ in length, and when
    they agree and the air-quality arrays differ in length (the weather
    object is looked at first). It returns a pair of tables only if both
    objects have an ['hourly'] entry whose arrays have one length. *)
Theorem process_data_outcomes (wd : payload weather_hourly) (ad : payload aqi_hourly) :
  (forall hourly summary, process_data wd ad = Frames hourly summary ->
     exists wh ah, wd = Dict (Some wh) /\ ad = Dict (Some ah) /\
                   aligned_weather wh /\ aligned_aqi ah) /\
  (truthy ad = true -> wd = Dict None -> process_data wd ad = Raised KeyError) /\
  (truthy ad = true -> forall wh, wd = Dict (Some wh) -> ~ aligned_weather wh ->
     process_data wd ad = Raised ValueError) /\
  (forall wh, wd = Dict (Some wh) -> aligned_weather wh -> ad = Dict None ->
     process_data wd ad = Raised KeyError) /\
  (forall wh ah, wd = Dict (Some wh) -> aligned_weather wh -> ad = Dict (Some ah) ->
     ~ aligned_aqi ah -> process_data wd ad = Raised ValueError).
Proof.
  unfold process_data.
  destruct wd as [| |[wh|]], ad as [| |[ah|]]; simpl;
    try (pose proof (weather_frame_aligned wh) as Hw;
         destruct (weather_frame wh) as [wdf|];
         [assert (aligned_weather wh) by (apply Hw; eauto)
         |assert (~ aligned_weather wh) by (intros X; apply Hw in X as [? ?]; discriminate)];
         clear Hw);
    try (pose proof (aqi_frame_aligned ah) as Ha;
         destruct (aqi_frame ah) as [adf|];
         [assert (aligned_aqi ah) by (apply Ha; eauto)
         |assert (~ aligned_aqi ah) by (intros X; apply Ha in X as [? ?]; discriminate)];
         clear Ha);
    naive_solver.
Qed.

Lemma process_data_outcomes_witness :
  process_data (Dict None) (Dict (Some aqi_june1)) = Raised KeyError /\
  process_data (Dict (Some weather_june1)) (Dict None) = Raised KeyError.
Proof.
  split.
  - apply (process_data_outcomes (Dict None) (Dict (Some aqi_june1))); reflexivity.
  - apply (process_data_outcomes (Dict (Some weather_june1)) (Dict None) ) with weather_june1;
      [reflexivity| |reflexivity].
    repeat split; reflexivity.
Defined.

Lemma combine_lookup {A B} (l : list A) (l' : list B) (i : nat) (a : A) (b : B) :
  combine l l' !! i = Some (a, b) <-> l !! i = Some a /\ l' !! i = Some b.
Proof.
  revert l' i. induction l as [|x l IH]; intros [|y l'] [|i]; simpl;
    try (split; [discriminate|intros [? ?]; discriminate]).
  - split; [intros H; injection H as -> ->; auto|intros [H1 H2]; congruence].
  - apply IH.
Qed.

Lemma In_lookup {A} (l : list A) (x : A) : In x l <-> exists i, l !! i = Some x.
Proof. rewrite <- list_elem_of_In. apply list_elem_of_lookup. Qed.

Lemma weather_frame_rows (h : weather_hourly) (df : list (Z * weather_row))
      (t : Z) (r : weather_row) :
  weather_frame h = Some df ->
  In (t, r) df <->
  exists i, w_time h !! i = Some t /\ temperature_2m h !! i = Some (w_Temp r) /\
            relativehumidity_2m h !! i = Some (w_Humidity r) /\
            rain h !! i = Some (w_Rain r) /\ windspeed_10m h !! i = Some (w_Wind r).
Proof.
  unfold weather_frame. destruct (_ && _); [|discriminate]. intros H. injection H as <-.
  rewrite in_map_iff. split.
  - intros ([t' [te [hu [ra wi]]]] & E & Hin). injection E as -> <-. simpl.
    apply In_lookup in Hin as [i Hi]. exists i.
    apply combine_lookup in Hi as [H1 Hi]. apply combine_lookup in Hi as [H2 Hi].
    apply combine_lookup in Hi as [H3 Hi]. apply combine_lookup in Hi as [H4 H5]. auto.
  - intros (i & H1 & H2 & H3 & H4 & H5).
    exists (t, (w_Temp r, (w_Humidity r, (w_Rain r, w_Wind r)))).
    split; [destruct r; reflexivity|].
    apply In_lookup. exists i. repeat (apply combine_lookup; split; [assumption|]). assumption.
Qed.

Lemma aqi_frame_rows (h : aqi_hourly) (df : list (Z * option Q)) (t : Z) (q : option Q) :
  aqi_frame h = Some df ->
  In (t, q) df <-> exists j, a_time h !! j = Some t /\ us_aqi h !! j = Some q.
Proof.
  unfold aqi_frame. destruct (_ =? _)%nat; [|discriminate]. intros H. injection H as <-.
  rewrite In_lookup. split; intros [j Hj]; exists j; apply combine_lookup; exact Hj.
Qed.

Lemma join_inner_rows (w : list (Z * weather_row)) (a : list (Z * option Q))
      (t : Z) (r : hourly_row) :
  In (t, r) (join_inner w a) <->
  exists wr q, In (t, wr) w /\ In (t, q) a /\ r = join_row wr q.
Proof.
  unfold join_inner. rewrite in_flat_map. split.
  - intros ([t' wr] & Hw & Hin). apply in_map_iff in Hin as ([t'' q] & E & Hin).
    simpl in E. injection E as -> <-.
    apply filter_In in Hin as [Ha Heq]. simpl in Heq. apply Z.eqb_eq in Heq. subst t''.
    exists wr, q. auto.
  - intros (wr & q & Hw & Ha & ->). exists (t, wr). split; [exact Hw|].
    apply in_map_iff. exists (t, q). split; [reflexivity|].
    apply filter_In. split; [exact Ha|]. simpl. apply Z.eqb_refl.
Qed.

(** X2: every row of the hourly table is made of one weather sample and one
    air-quality sample of the same timestamp, each column holding the value
    found at the position of that sample in its array; and every such pair of
    samples gives a row. No value moves to another timestamp or column. *)
Theorem hourly_rows_are_matching_samples wh ah hourly summary t r :
  process_data (Dict (Some wh)) (Dict (Some ah)) = Frames hourly summary ->
  In (t, r) hourly <-> exists i j, row_of_samples wh ah i j t r.
Proof.
  intros Hrun.
  apply process_data_frames_inv in Hrun
    as (wh' & ah' & wdf & adf & Ew & Ea & Hwf & Haf & -> & _).
  injection Ew as <-. injection Ea as <-.
  rewrite join_inner_rows. unfold row_of_samples. split.
  - intros (wr & q & Hw & Ha & ->).
    apply (weather_frame_rows _ _ _ _ Hwf) in Hw as (i & H1 & H2 & H3 & H4 & H5).
    apply (aqi_frame_rows _ _ _ _ Haf) in Ha as (j & H6 & H7).
    exists i, j. simpl. auto 10.
  - intros (i & j & H1 & H2 & H3 & H4 & H5 & H6 & H7).
    exists {| w_Temp := Temp r; w_Humidity := Humidity r; w_Rain := Rain r; w_Wind := Wind r |},
           (AQI r).
    split; [|split].
    + apply (weather_frame_rows _ _ _ _ Hwf). exists i. simpl. auto.
    + apply (aqi_frame_rows _ _ _ _ Haf). exists j. auto.
    + destruct r; reflexivity.
Qed.

Lemma hourly_rows_are_matching_samples_witness :
  exists hourly summary r,
    process_data (Dict (Some weather_five)) (Dict (Some aqi_four)) = Frames hourly summary /\
    In (at_hour 2024 6 1 3, r) hourly /\
    Temp r = num 25 /\ AQI r = num 28.
Proof.
  destruct (process_data (Dict (Some weather_five)) (Dict (Some aqi_four)))
    as [|hourly summary|e] eqn:Hrun;
    [vm_compute in Hrun; discriminate| |vm_compute in Hrun; discriminate].
  exists hourly, summary,
    {| Temp := num 25; Humidity := num 60; Rain := num 2; Wind := num 10; AQI := num 28 |}.
  split; [reflexivity|]. split; [|split; reflexivity].
  apply (hourly_rows_are_matching_samples weather_five aqi_four hourly summary _ _ Hrun).
  exists 3%nat, 2%nat. unfold row_of_samples. repeat split; reflexivity.
Defined.

Lemma has_time_In (times : list Z) (t : Z) : has_time times t = true <-> In t times.
Proof.
  unfold has_time. rewrite existsb_exists. split.
  - intros (x & Hx & E). apply Z.eqb_eq in E. congruence.
  - intros H. exists t. split; [exact H|apply Z.eqb_refl].
Qed.

Lemma matches_of_unique_key {B} (f : Z * option Q -> B) (a : list (Z * option Q)) (t : Z) :
  NoDup (map fst a) ->
  length (map f (List.filter (fun ar => fst ar =? t) a)) =
    if has_time (map fst a) t then 1%nat else 0%nat.
Proof.
  induction a as [|ar a IH]; simpl; intros Hnd; [reflexivity|].
  apply NoDup_cons in Hnd as [Hnotin Hnd]. rewrite list_elem_of_In in Hnotin.
  rewrite (Z.eqb_sym t (fst ar)).
  destruct (Z.eqb_spec (fst ar) t) as [E|E]; simpl.
  - rewrite filter_no_match by congruence. reflexivity.
  - apply IH, Hnd.
Qed.

Lemma join_inner_times_unique (w : list (Z * weather_row)) (a : list (Z * option Q)) :
  NoDup (map fst a) ->
  map fst (join_inner w a) = List.filter (has_time (map fst a)) (map fst w).
Proof.
  intros Hnd. unfold join_inner. induction w as [|wr w IH]; simpl; [reflexivity|].
  rewrite map_app, IH, map_map. simpl.
  pose proof (matches_of_unique_key (fun _ => fst wr) a (fst wr) Hnd) as Hlen.
  destruct (has_time (map fst a) (fst wr));
    destruct (map _ (List.filter _ a)) as [|x [|y l]] eqn:E; simpl in Hlen; try discriminate.
  - assert (Hx : In x (map (fun _ : Z * option Q => fst wr)
                         (List.filter (fun ar => fst ar =? fst wr) a)))
      by (rewrite E; left; reflexivity).
    apply in_map_iff in Hx as (? & <- & _). reflexivity.
  - reflexivity.
Qed.

Lemma filter_shorter {A} (f : A -> bool) (l : list A) :
  (length (List.filter f l) <= length l)%nat.
Proof. induction l as [|x l IH]; simpl; [lia|]. destruct (f x); simpl; lia. Qed.

(** X3: when no timestamp occurs twice in the air-quality series, the
    timestamps of the hourly table are those of the weather series that the
    air-quality series has too, in the order of the weather series; so the
    hourly table has at most as many rows as the weather series, and no
    timestamp twice if the weather series has none twice. *)
Theorem hourly_times_follow_weather wh ah hourly summary :
  process_data (Dict (Some wh)) (Dict (Some ah)) = Frames hourly summary ->
  NoDup (a_time ah) ->
  map fst hourly = List.filter (has_time (a_time ah)) (w_time wh) /\
  (length hourly <= length (w_time wh))%nat /\
  (NoDup (w_time wh) -> NoDup (map fst hourly)).
Proof.
  intros Hrun Hnd.
  apply process_data_frames_inv in Hrun
    as (wh' & ah' & wdf & adf & Ew & Ea & Hwf & Haf & -> & _).
  injection Ew as <-. injection Ea as <-.
  pose proof (weather_frame_times _ _ Hwf) as Hwt.
  pose proof (aqi_frame_times _ _ Haf) as Hat.
  assert (Htimes : map fst (join_inner wdf adf) =
                   List.filter (has_time (a_time ah)) (w_time wh)).
  { rewrite <- Hat, <- Hwt. apply join_inner_times_unique. rewrite Hat. exact Hnd. }
  split; [exact Htimes|]. split.
  - rewrite <- (length_map fst), Htimes. apply filter_shorter.
  - intros Hw. rewrite Htimes. apply NoDup_ListNoDup, List.NoDup_filter, NoDup_ListNoDup, Hw.
Qed.

Lemma hourly_times_follow_weather_witness :
  exists hourly summary,
    process_data (Dict (Some weather_five)) (Dict (Some aqi_four)) = Frames hourly summary /\
    map fst hourly = List.filter (has_time (a_time aqi_four)) (w_time weather_five) /\
    (length hourly <= 5)%nat.
Proof.
  destruct (process_data (Dict (Some weather_five)) (Dict (Some aqi_four)))
    as [|hourly summary|e] eqn:Hrun;
    [vm_compute in Hrun; discriminate| |vm_compute in Hrun; discriminate].
  exists hourly, summary. split; [reflexivity|].
  assert (Hnd : NoDup (a_time aqi_four)).
  { apply (bool_decide_unpack _). vm_compute. exact I. }
  destruct (hourly_times_follow_weather weather_five aqi_four hourly summary Hrun Hnd)
    as (H1 & H2 & _).
  split; [exact H1|exact H2].
Defined.

(** X4: the daily summary is empty exactly when the hourly table is, and the
    hourly table is empty exactly when the two series have no timestamp in
    common; two non-empty series without a common timestamp thus give two
    empty tables, not the no-data outcome. *)
Theorem empty_tables_without_common_time wh ah hourly summary :
  process_data (Dict (Some wh)) (Dict (Some ah)) = Frames hourly summary ->
  (summary = [] <-> hourly = []) /\
  (hourly = [] <-> forall t, In t (w_time wh) -> ~ In t (a_time ah)).
Proof.
  intros Hrun.
  apply process_data_frames_inv in Hrun
    as (wh' & ah' & wdf & adf & Ew & Ea & Hwf & Haf & -> & ->).
  injection Ew as <-. injection Ea as <-.
  pose proof (weather_frame_times _ _ Hwf) as Hwt.
  pose proof (aqi_frame_times _ _ Haf) as Hat.
  split.
  - split; [|intros ->; reflexivity].
    intros Hs. destruct (join_inner wdf adf) as [|row rest] eqn:E; [reflexivity|exfalso].
    destruct (day_labels_range (row :: rest) ltac:(discriminate))
      as (first & last & [(t1 & r1 & Hin1 & Hon1) _] & [_ Hhi] & Hlabels).
    specialize (Hhi _ _ Hin1). destruct Hon1 as [Hlo _].
    assert (Hpos : 0 < ns_per_day) by (unfold ns_per_day; lia).
    unfold resample_daily in Hs. rewrite Hlabels in Hs.
    apply (f_equal (@length _)) in Hs. rewrite length_map, length_seqZ in Hs. simpl in Hs.
    nia.
  - split.
    + intros E t Hw Ha.
      assert (Hin : In t (map fst (join_inner wdf adf)))
        by (apply join_inner_times; rewrite Hwt, Hat; auto).
      rewrite E in Hin. exact Hin.
    + intros Hdisj. destruct (join_inner wdf adf) as [|[t r] rest] eqn:E; [reflexivity|exfalso].
      assert (Hin : In t (map fst (join_inner wdf adf))) by (rewrite E; left; reflexivity).
      apply join_inner_times in Hin as [Hw Ha]. rewrite Hwt in Hw. rewrite Hat in Ha.
      exact (Hdisj t Hw Ha).
Qed.

Lemma empty_tables_without_common_time_witness :
  process_data (Dict (Some weather_gap)) (Dict (Some aqi_june1_later)) = Frames [] [].
Proof.
  destruct (process_data (Dict (Some weather_gap)) (Dict (Some aqi_june1_later)))
    as [|hourly summary|e] eqn:Hrun;
    [vm_compute in Hrun; discriminate| |vm_compute in Hrun; discriminate].
  destruct (empty_tables_without_common_time weather_gap aqi_june1_later hourly summary Hrun)
    as [Hs Hh].
  assert (hourly = []) as ->.
  { apply Hh. vm_compute. intros t [<-|[<-|[]]] [H|[H|[]]]; discriminate. }
  rewrite (proj2 Hs eq_refl). reflexivity.
Defined.

Lemma filter_Permutation_key {B} (t : Z) (a a' : list (Z * B)) :
  Permutation a a' ->
  Permutation (List.filter (fun ar => fst ar =? t) a) (List.filter (fun ar => fst ar =? t) a').
Proof.
  induction 1 as [|x l l' _ IH|x y l|l l' l'' _ IH1 _ IH2]; simpl.
  - constructor.
  - destruct (fst x =? t); [constructor|]; exact IH.
  - destruct (fst x =? t), (fst y =? t); try reflexivity. constructor.
  - etransitivity; eassumption.
Qed.

Lemma join_inner_permuted (w : list (Z * weather_row)) (a a' : list (Z * option Q)) :
  Permutation a a' -> NoDup (map fst a) -> join_inner w a = join_inner w a'.
Proof.
  intros Hperm Hnd. unfold join_inner. induction w as [|wr w IH]; simpl; [reflexivity|].
  rewrite IH. f_equal. f_equal.
  pose proof (filter_Permutation_key (fst wr) a a' Hperm) as Hf.
  pose proof (matches_of_unique_key id a (fst wr) Hnd) as Hlen. rewrite length_map in Hlen.
  destruct (List.filter _ a) as [|x [|y l]].
  - apply Permutation_nil in Hf. congruence.
  - apply Permutation_length_1_inv in Hf. congruence.
  - destruct (has_time _ _); discriminate.
Qed.

(** X6: when no timestamp occurs twice in the air-quality series, the order
    of its samples does not matter: both tables are the same for every
    rearrangement of them. *)
Theorem aqi_order_is_irrelevant (wh : weather_hourly) (rows rows' : list (Z * option Q)) :
  Permutation rows rows' ->
  NoDup (map fst rows) ->
  process_data (Dict (Some wh)) (Dict (Some (aqi_of_rows rows))) =
  process_data (Dict (Some wh)) (Dict (Some (aqi_of_rows rows'))).
Proof.
  intros Hperm Hnd. unfold process_data. simpl.
  destruct (weather_frame wh) as [wdf|]; [|reflexivity].
  rewrite !aqi_frame_of_rows, (join_inner_permuted wdf rows rows' Hperm Hnd). reflexivity.
Qed.

Lemma aqi_order_is_irrelevant_witness :
  process_data (Dict (Some weather_june1))
    (Dict (Some (aqi_of_rows [(at_hour 2024 6 1 0, num 30); (at_hour 2024 6 1 1, num 35)]))) =
  process_data (Dict (Some weather_june1))
    (Dict (Some (aqi_of_rows [(at_hour 2024 6 1 1, num 35); (at_hour 2024 6 1 0, num 30)]))).
Proof.
  apply aqi_order_is_irrelevant.
  - apply perm_swap.
  - apply (bool_decide_unpack _). vm_compute. exact I.
Defined.

End PipelineOutcomes.

(** ** More on the forecast fetcher and its cache *)

Section FetcherOutcomes.
Import Fetcher MoreSamples.
Context {coord body : Type}.

(** A reply that the [try] block accepts: a response whose status is not an
    error status and whose text is JSON. *)
Lemma get_json_accepts (r : reply body) (data : body) :
  get_json r = inr data <->
  exists status_code, r = Response status_code (Some data) /\
                      ~ (400 <= status_code < 600).
Proof.
  destruct r as [cause|status_code [b|]]; simpl.
  - split; [discriminate|intros (? & ? & _); discriminate].
  - unfold raises_for_status. destruct (_ && _) eqn:B.
    + apply andb_true_iff in B as [B1 B2]. apply Z.leb_le in B1. apply Z.ltb_lt in B2.
      split; [discriminate|]. intros (s' & E & Hs). injection E as <- <-. lia.
    + split.
      * intros E. injection E as ->. exists status_code. split; [reflexivity|].
        intros [H1 H2]. apply Z.leb_le in H1. apply Z.ltb_lt in H2.
        rewrite H1, H2 in B. discriminate.
      * intros (s' & E & _). injection E as <- <-. reflexivity.
  - destruct (raises_for_status status_code);
      (split; [discriminate|intros (? & ? & _); discriminate]).
Qed.

Lemma fetch_fails (network : request coord -> reply body) (lat lon : coord) :
  request_fails (network (Forecast lat lon)) \/ request_fails (network (AirQuality lat lon)) ->
  returned (fetch_forecast_data network lat lon) = (None, None).
Proof.
  unfold fetch_forecast_data. intros [H|H]; apply get_json_fails in H as [e He].
  - rewrite He. reflexivity.
  - destruct (get_json (network (Forecast lat lon))); [reflexivity|].
    rewrite He. reflexivity.
Qed.

(** X7: [fetch_forecast_data] returns two bodies exactly when both replies
    are responses with JSON text whose status is outside 400..599 (any other
    status, 304 for one, counts as success). The weather request is issued
    first, the air-quality request exactly when the weather reply was
    accepted, and nothing is requested twice; a message is reported exactly
    when nothing is returned. *)
Theorem fetch_requests_and_success (network : request coord -> reply body) (lat lon : coord) :
  let out := fetch_forecast_data network lat lon in
  (forall w a, returned out = (Some w, Some a) <->
     exists sw sa, network (Forecast lat lon) = Response sw (Some w) /\ ~ (400 <= sw < 600) /\
                   network (AirQuality lat lon) = Response sa (Some a) /\ ~ (400 <= sa < 600)) /\
  ((exists w, get_json (network (Forecast lat lon)) = inr w) /\
     requested out = [Forecast lat lon; AirQuality lat lon] \/
   (exists e, get_json (network (Forecast lat lon)) = inl e) /\
     requested out = [Forecast lat lon]) /\
  (reported out = [] <-> exists w a, returned out = (Some w, Some a)) /\
  (length (reported out) <= 1)%nat.
Proof.
  unfold fetch_forecast_data. split; [|split; [|split]].
  - intros w a.
    destruct (get_json (network (Forecast lat lon))) as [e|w'] eqn:Ew; simpl.
    + split; [discriminate|]. intros (sw & sa & Hw & Hsw & _).
      assert (get_json (network (Forecast lat lon)) = inr w) by (apply get_json_accepts; eauto).
      congruence.
    + destruct (get_json (network (AirQuality lat lon))) as [e|a'] eqn:Ea; simpl.
      * split; [discriminate|]. intros (sw & sa & _ & _ & Ha & Hsa).
        assert (get_json (network (AirQuality lat lon)) = inr a)
          by (apply get_json_accepts; eauto).
        congruence.
      * split.
        -- intros E. injection E as <- <-.
           apply get_json_accepts in Ew as (sw & Hw & Hsw).
           apply get_json_accepts in Ea as (sa & Ha & Hsa). exists sw, sa. auto.
        -- intros (sw & sa & Hw & Hsw & Ha & Hsa).
           assert (get_json (network (Forecast lat lon)) = inr w)
             by (apply get_json_accepts; eauto).
           assert (get_json (network (AirQuality lat lon)) = inr a)
             by (apply get_json_accepts; eauto).
           congruence.
  - destruct (get_json (network (Forecast lat lon))) as [e|w]; [right; eauto|left].
    split; [eauto|]. destruct (get_json (network (AirQuality lat lon))); reflexivity.
  - destruct (get_json (network (Forecast lat lon))) as [e|w]; simpl.
    + split; [discriminate|intros (? & ? & ?); discriminate].
    + destruct (get_json (network (AirQuality lat lon))) as [e|a]; simpl.
      * split; [discriminate|intros (? & ? & ?); discriminate].
      * split; eauto.
  - destruct (get_json (network (Forecast lat lon))) as [e|w]; simpl; [lia|].
    destruct (get_json (network (AirQuality lat lon))); simpl; lia.
Qed.

End FetcherOutcomes.

Section ForecastCacheFacts.
Import Fetcher ForecastCache MoreSamples.
Context {coord body : Type} `{EqDecision coord}.

(** X8: the fetcher's cache keeps what a call returned, failures included.
    After a call that found no live entry, a call for the same coordinates
    less than an hour later returns the same pair and issues no request,
    whatever the network would answer then; so a failed fetch stays
    [(None, None)] for that hour. *)
Theorem fetch_result_is_reused (network network' : request coord -> reply body)
    (m : memo coord body) (t1 t2 : Z) (lat lon : coord) :
  (forall s, find_slot (lat, lon) (slots m) = Some s -> fetched_at s + ttl <= t1) ->
  t2 < t1 + ttl ->
  let first := cached_fetch network m t1 lat lon in
  let second := cached_fetch network' (snd first) t2 lat lon in
  fst first = returned (fetch_forecast_data network lat lon) /\
  issued (snd first) = issued m ++ requested (fetch_forecast_data network lat lon) /\
  fst second = fst first /\
  snd second = snd first /\
  (request_fails (network (Forecast lat lon)) \/ request_fails (network (AirQuality lat lon)) ->
   fst second = (None, None)).
Proof.
  intros Hstale Hlt first second.
  assert (Hfirst : first = refetch network m t1 lat lon).
  { unfold first, cached_fetch. destruct (find_slot (lat, lon) (slots m)) as [s|] eqn:E;
      [|reflexivity].
    specialize (Hstale s eq_refl).
    replace (t1 <? fetched_at s + ttl) with false by (symmetry; apply Z.ltb_ge; lia).
    reflexivity. }
  assert (Hsecond : second = (fst first, snd first)).
  { unfold second. rewrite Hfirst. unfold refetch, cached_fetch. simpl.
    destruct (decide ((lat, lon) = (lat, lon))) as [_|Hne]; [|congruence]. simpl.
    replace (t2 <? t1 + ttl) with true by (symmetry; apply Z.ltb_lt; lia). reflexivity. }
  rewrite Hsecond. simpl. rewrite Hfirst. unfold refetch. simpl.
  repeat split; try reflexivity.
  intros Hfail. apply fetch_fails, Hfail.
Qed.

End ForecastCacheFacts.

Section ForecastCacheSamples.
Import Fetcher ForecastCache MoreSamples.

Lemma fetch_requests_and_success_witness :
  returned (fetch_forecast_data (coord := Z) network_not_modified 12 77) =
    (Some "weather"%string, Some "air quality"%string).
Proof.
  apply (fetch_requests_and_success (coord := Z) network_not_modified 12 77).
  exists 304, 200. repeat split; lia.
Defined.

Lemma fetch_result_is_reused_witness :
  fst (cached_fetch network_up (snd (cached_fetch network_down no_forecasts 0 12 77)) 100 12 77)
    = (None, None) /\
  issued (snd (cached_fetch network_up (snd (cached_fetch network_down no_forecasts 0 12 77))
                 100 12 77)) = [Forecast 12 77].
Proof.
  destruct (fetch_result_is_reused network_down network_up no_forecasts 0 100 12 77)
    as (_ & H2 & _ & H4 & H5); [discriminate|reflexivity|].
  split; [apply H5; left; exact I|]. rewrite H4, H2. reflexivity.
Defined.

End ForecastCacheSamples.

(** ** More on the advisory generator *)

Section AdvisoryOutcomes.
Import Advisory Samples MoreSamples.

Lemma reload_forces_generation_witness :
  invocations (snd (get_health_recommendations steady_env
                      (clear (snd (get_health_recommendations steady_env no_cache 0 "summary")))
                      1 "summary")) = 2%nat.
Proof.
  apply (reload_forces_generation steady_env
           (snd (get_health_recommendations steady_env no_cache 0 "summary"))
           "key" 1 "summary" eq_refl).
  discriminate.
Defined.

Lemma expired_entry_forces_generation_witness :
  invocations (snd (get_health_recommendations steady_env
                      (snd (get_health_recommendations steady_env no_cache 0 "summary"))
                      3600 "summary")) = 2%nat.
Proof.
  apply (expired_entry_forces_generation steady_env
           (snd (get_health_recommendations steady_env no_cache 0 "summary"))
           "key" {| stored_at := 0; cached := Some (JArray advisory_response) |}
           3600 "summary" eq_refl).
  - discriminate.
  - vm_compute. reflexivity.
  - vm_compute. discriminate.
Defined.

Lemma miss_regenerates env st now key :
  (forall e, cache st !! key = Some e -> stored_at e + ttl <= now) ->
  get_health_recommendations env st now key = regenerate env st now key.
Proof.
  intros Hstale. unfold get_health_recommendations.
  destruct (cache st !! key) as [e|]; [|reflexivity].
  specialize (Hstale e eq_refl). unfold fresh.
  replace (now <? stored_at e + ttl) with false by (symmetry; apply Z.ltb_ge; lia).
  reflexivity.
Qed.

(** X11: a failed generation is kept like any other value. When a call that
    found no live entry returned [None], a call with the same summary less
    than an hour later returns [None] as well and does not invoke the service,
    whatever the secret and the service are by then. *)
Theorem failed_generation_is_reused env env' st t1 t2 key :
  (forall e, cache st !! key = Some e -> stored_at e + ttl <= t1) ->
  fst (get_health_recommendations env st t1 key) = None ->
  t2 < t1 + ttl ->
  fst (get_health_recommendations env' (snd (get_health_recommendations env st t1 key)) t2 key)
    = None /\
  snd (get_health_recommendations env' (snd (get_health_recommendations env st t1 key)) t2 key)
    = snd (get_health_recommendations env st t1 key).
Proof.
  intros Hstale Hnone Hlt. rewrite (miss_regenerates env st t1 key Hstale) in *.
  unfold get_health_recommendations. rewrite regenerate_stores.
  unfold fresh. cbn [stored_at cached].
  replace (t2 <? t1 + ttl) with true by (symmetry; apply Z.ltb_lt; lia).
  cbn [fst snd]. auto.
Qed.

Lemma failed_generation_is_reused_witness :
  fst (get_health_recommendations steady_env
         (snd (get_health_recommendations flaky_env no_cache 0 "summary")) 60 "summary") = None.
Proof.
  apply (failed_generation_is_reused flaky_env steady_env no_cache 0 60 "summary").
  - intros e He. vm_compute in He. discriminate.
  - reflexivity.
  - reflexivity.
Defined.

(** X12: without a configured secret the service is never invoked, and a
    call that finds no live entry returns [None]. *)
Theorem no_secret_no_invocation env st now key :
  api_key env = None ->
  invocations (snd (get_health_recommendations env st now key)) = invocations st /\
  ((forall e, cache st !! key = Some e -> stored_at e + ttl <= now) ->
   fst (get_health_recommendations env st now key) = None).
Proof.
  intros Hkey. split.
  - unfold get_health_recommendations, regenerate, generate. rewrite Hkey.
    destruct (cache st !! key) as [e|]; [destruct (fresh e now)|]; reflexivity.
  - intros Hstale. rewrite (miss_regenerates env st now key Hstale).
    unfold regenerate, generate. rewrite Hkey. reflexivity.
Qed.

Lemma no_secret_no_invocation_witness :
  invocations (snd (get_health_recommendations keyless_env no_cache 0 "summary")) = 0%nat /\
  fst (get_health_recommendations keyless_env no_cache 0 "summary") = None.
Proof.
  destruct (no_secret_no_invocation keyless_env no_cache 0 "summary" eq_refl) as [H1 H2].
  split; [exact H1|]. apply H2. intros e He. vm_compute in He. discriminate.
Defined.

(** X13: entries are kept per summary text: a call with one summary leaves
    the entry of every other summary as it was, and invokes the service at
    most once. *)
Theorem other_summaries_keep_their_entry env st now key other :
  other <> key ->
  cache (snd (get_health_recommendations env st now key)) !! other = cache st !! other /\
  (invocations st <= invocations (snd (get_health_recommendations env st now key))
     <= S (invocations st))%nat.
Proof.
  intros Hne. unfold get_health_recommendations, regenerate, generate.
  destruct (cache st !! key) as [e|]; [destruct (fresh e now)|]; simpl;
    try (split; [reflexivity|lia]);
    (destruct (api_key env) as [[|c text]|]; [|destruct (generate_content env _ _)|]; simpl;
     (split; [apply lookup_insert_ne; congruence|lia])).
Qed.

Lemma other_summaries_keep_their_entry_witness :
  cache (snd (get_health_recommendations steady_env
                (snd (get_health_recommendations steady_env no_cache 0 "monday"))
                10 "tuesday")) !! "monday"%string
  = cache (snd (get_health_recommendations steady_env no_cache 0 "monday")) !! "monday"%string.
Proof.
  apply other_summaries_keep_their_entry. discriminate.
Defined.

End AdvisoryOutcomes.

(** ** More on the advisory table *)

Section RenderingOutcomes.
Import Rendering Entries Samples.

Lemma append_rec_unreadable (t : rec_table) (rec : json) :
  readable rec = false -> append_rec t rec = None.
Proof.
  destruct rec as [| | | | |fields]; try reflexivity.
  unfold readable, append_rec, dict_get. simpl.
  destruct (assoc "recommendations" fields) as [[]|]; simpl; try discriminate; reflexivity.
Qed.

Lemma append_rec_readable (t : rec_table) (rec : json) :
  readable rec = true ->
  exists d c m a,
    append_rec t rec = Some {| index_dates := index_dates t ++ [d];
                               children_and_elderly := children_and_elderly t ++ [c];
                               people_with_morbidities := people_with_morbidities t ++ [m];
                               adults := adults t ++ [a] |}.
Proof.
  destruct rec as [| | | | |fields]; try discriminate.
  unfold readable, append_rec, dict_get. simpl.
  destruct (assoc "recommendations" fields) as [[]|]; simpl; try discriminate;
    intros _; eauto 10.
Qed.

Lemma fold_from_none (recs : list json) :
  fold_left (fun acc rec => t ← acc; append_rec t rec) recs None = None.
Proof. induction recs as [|rec recs IH]; simpl; [reflexivity|exact IH]. Qed.

Lemma loop_from (recs : list json) : forall t,
  match fold_left (fun acc rec => t' ← acc; append_rec t' rec) recs (Some t) with
  | None => exists rec, In rec recs /\ readable rec = false
  | Some t' =>
      forallb readable recs = true /\
      length (index_dates t') = (length (index_dates t) + length recs)%nat /\
      length (children_and_elderly t') = (length (children_and_elderly t) + length recs)%nat /\
      length (people_with_morbidities t') =
        (length (people_with_morbidities t) + length recs)%nat /\
      length (adults t') = (length (adults t) + length recs)%nat
  end.
Proof.
  induction recs as [|rec recs IH]; intros t; simpl.
  - repeat split; lia.
  - destruct (readable rec) eqn:Hr.
    + destruct (append_rec_readable t rec Hr) as (d & c & m & a & ->).
      specialize (IH {| index_dates := index_dates t ++ [d];
                        children_and_elderly := children_and_elderly t ++ [c];
                        people_with_morbidities := people_with_morbidities t ++ [m];
                        adults := adults t ++ [a] |}).
      destruct (fold_left _ recs _) as [t'|].
      * simpl in IH. rewrite !length_app in IH. simpl in IH.
        destruct IH as (H0 & H1 & H2 & H3 & H4). repeat split; [exact H0|lia..].
      * destruct IH as (rec' & Hin & Hbad). eauto.
    + rewrite (append_rec_unreadable t rec Hr), fold_from_none. eauto.
Qed.

(** X14: the loop over the entries of a response raises exactly when some
    entry is not an object or has a ["recommendations"] value that is not an
    object; a value of another type under ["day"] or under an audience does
    not make it raise. When the loop ends, the list of days and the three
    lists of recommendations each have as many items as the response has
    entries. *)
Theorem loop_ends_on_readable_entries (recs : list json) :
  (loop recs = None <-> exists rec, In rec recs /\ readable rec = false) /\
  (forall t, loop recs = Some t ->
     length (index_dates t) = length recs /\
     length (children_and_elderly t) = length recs /\
     length (people_with_morbidities t) = length recs /\
     length (adults t) = length recs).
Proof.
  pose proof (loop_from recs empty_table) as Hloop. unfold loop.
  destruct (fold_left _ recs (Some empty_table)) as [t|].
  - destruct Hloop as (Hall & H1 & H2 & H3 & H4). split.
    + split; [discriminate|]. intros (bad & Hin & Hbad).
      rewrite forallb_forall in Hall. rewrite (Hall bad Hin) in Hbad. discriminate.
    + intros t' E. injection E as <-. auto.
  - split; [|discriminate]. split; [intros _; exact Hloop|reflexivity].
Qed.

Lemma loop_ends_on_readable_entries_witness :
  loop [JObject [("day"%string, JNumber 5)]; JString "2024-06-02"] = None /\
  exists t, loop [JObject [("day"%string, JNumber 5)]] = Some t /\
            index_dates t = [JNumber 5] /\ length (adults t) = 1%nat.
Proof.
  split.
  - apply loop_ends_on_readable_entries.
    exists (JString "2024-06-02"). split; [right; left|]; reflexivity.
  - destruct (loop [JObject [("day"%string, JNumber 5)]]) as [t|] eqn:E; [|discriminate].
    exists t. split; [reflexivity|].
    destruct (loop_ends_on_readable_entries [JObject [("day"%string, JNumber 5)]])
      as [_ Hlen].
    destruct (Hlen t E) as (_ & _ & _ & H4).
    split; [|exact H4]. vm_compute in E. injection E as <-. reflexivity.
Defined.

(** X15: a table is shown only for a non-empty list; the warning is shown
    exactly for the values Python takes as false ([None], [null], [false],
    zero, the empty text, list and object); every other value that is not a
    list makes the loop fail. *)
Theorem display_by_kind_of_response (recommendations : option json) :
  (render recommendations = Warning <-> truthy recommendations = false) /\
  (forall t, render recommendations = Table t ->
     exists recs, recommendations = Some (JArray recs) /\ recs <> []) /\
  (truthy recommendations = true ->
   (forall recs, recommendations <> Some (JArray recs)) ->
   render recommendations = Crash).
Proof.
  unfold render. destruct (truthy recommendations) eqn:Ht.
  - split; [|split].
    + split; [|discriminate].
      destruct recommendations as [[| | | |recs|]|]; try discriminate.
      destruct (loop recs); discriminate.
    + intros t. destruct recommendations as [[| | | |recs|]|]; try discriminate.
      intros _. exists recs. split; [reflexivity|]. intros ->. discriminate.
    + intros _ Hnot. destruct recommendations as [[| | | |recs|]|]; try reflexivity.
      exfalso. apply (Hnot recs). reflexivity.
  - split; [|split].
    + split; reflexivity.
    + discriminate.
    + discriminate.
Qed.

Lemma display_by_kind_of_response_witness :
  render (Some (JObject [("error"%string, JString "quota")])) = Crash.
Proof.
  apply display_by_kind_of_response; [reflexivity|discriminate].
Defined.

End RenderingOutcomes.

(** ** More on the site registry *)

Section RegistryOutcomes.
Import Registry Startup Samples.
Context {number : Type} (float : string -> option number).

(** X16: a "Save Changes" whose latitude text is a number and whose
    longitude text is not reports "Invalid coordinates." after it has stored
    the new latitude: the registry of the session then holds the new latitude
    with the old longitude for the selected site, the file is not rewritten,
    the other sites are unchanged and the session stays in edit mode. *)
Theorem latitude_kept_when_longitude_fails (s : session number)
    (selected_site lat_display lon_display : string) (lat : number) (info : site number) :
  edit_mode s = true ->
  sites s !! selected_site = Some info ->
  float lat_display = Some lat ->
  float lon_display = None ->
  let out := save_changes float s selected_site lat_display lon_display in
  snd out = Error "Invalid coordinates." /\
  sites (fst out) !! selected_site = Some {| latitude := lat; longitude := longitude info |} /\
  (forall other, other <> selected_site -> sites (fst out) !! other = sites s !! other) /\
  sites_file (fst out) = sites_file s /\
  edit_mode (fst out) = true.
Proof.
  intros Hedit Hinfo Hlat Hlon. unfold save_changes. rewrite Hedit, Hlat, Hinfo, Hlon. simpl.
  split; [reflexivity|]. split; [apply lookup_insert_eq|]. split; [|auto].
  intros other Hne. apply lookup_insert_ne. congruence.
Qed.

(** X17: "Add Site" changes nothing unless it reports success (with an empty
    field it does nothing and shows nothing); "Save Changes" rewrites the
    file and leaves edit mode only when it reports success, and changes
    nothing at all outside edit mode, when the latitude text is not a number,
    or when the selected site is not in the registry. *)
Theorem no_change_without_success (s : session number) (a b c : string) :
  ((forall message, snd (add_site float s a b c) <> Success message) ->
   fst (add_site float s a b c) = s) /\
  (nonempty a = false \/ nonempty b = false \/ nonempty c = false ->
   add_site float s a b c = (s, Silent)) /\
  ((forall message, snd (save_changes float s a b c) <> Success message) ->
   sites_file (fst (save_changes float s a b c)) = sites_file s /\
   edit_mode (fst (save_changes float s a b c)) = edit_mode s) /\
  (edit_mode s = false \/ float b = None \/ sites s !! a = None ->
   fst (save_changes float s a b c) = s).
Proof.
  split; [|split; [|split]].
  - unfold add_site. destruct (_ && _); [|reflexivity].
    destruct (float b); [|reflexivity]. destruct (float c); [|reflexivity].
    simpl. intros H. exfalso. eapply H. reflexivity.
  - unfold add_site. intros [H|[H|H]]; rewrite H; simpl; rewrite ?andb_false_r; reflexivity.
  - unfold save_changes. destruct (edit_mode s) eqn:He; simpl; [|auto].
    destruct (float b); simpl; [|auto].
    destruct (sites s !! a); simpl; [|auto].
    destruct (float c); simpl; [|auto].
    intros H. exfalso. eapply H. reflexivity.
  - unfold save_changes. intros [H|[H|H]].
    + rewrite H. reflexivity.
    + destruct (edit_mode s); simpl; [|reflexivity]. rewrite H. reflexivity.
    + destruct (edit_mode s); simpl; [|reflexivity].
      destruct (float b); [|reflexivity]. rewrite H. reflexivity.
Qed.

(** X18: a site added in a session is not in the file, so a new session does
    not have it unless the file had that name; the next "Save Changes" that
    succeeds, for another site, writes it along: a new session then has the
    added site with the coordinates it was added with. *)
Theorem added_site_is_saved_by_next_edit (s : session number)
    (new_site_name new_lat new_lon selected_site lat_display lon_display : string)
    (added edited : string) :
  snd (add_site float s new_site_name new_lat new_lon) = Success added ->
  snd (save_changes float (fst (add_site float s new_site_name new_lat new_lon))
         selected_site lat_display lon_display) = Success edited ->
  selected_site <> new_site_name ->
  let s1 := fst (add_site float s new_site_name new_lat new_lon) in
  let s2 := fst (save_changes float s1 selected_site lat_display lon_display) in
  sites (new_session (sites_file s1)) = load_sites (sites_file s) /\
  (exists lat lon, float new_lat = Some lat /\ float new_lon = Some lon /\
     sites (new_session (sites_file s2)) !! new_site_name =
       Some {| latitude := lat; longitude := lon |}) /\
  sites (new_session (sites_file s2)) = sites s2.
Proof.
  intros Hadd Hsave Hne s1 s2. subst s1 s2.
  unfold add_site in *.
  destruct (_ && _); [|discriminate].
  destruct (float new_lat) as [lat|]; [|discriminate].
  destruct (float new_lon) as [lon|]; [|discriminate]. simpl in *. clear Hadd.
  unfold save_changes in *. simpl in *.
  destruct (edit_mode s); simpl in *; [|discriminate].
  destruct (float lat_display) as [lat'|]; simpl in *; [|discriminate].
  rewrite lookup_insert_ne in * by congruence.
  destruct (sites s !! selected_site) as [info|]; simpl in *; [|discriminate].
  destruct (float lon_display) as [lon'|]; simpl in *; [|discriminate].
  split; [reflexivity|]. split; [|reflexivity].
  exists lat, lon. split; [reflexivity|]. split; [reflexivity|].
  rewrite !lookup_insert_ne by congruence. apply lookup_insert_eq.
Qed.

End RegistryOutcomes.

Section RegistryOutcomeSamples.
Import Registry Startup Samples.

Lemma latitude_kept_when_longitude_fails_witness :
  sites (fst (save_changes decimal editing "Lakeview" "13.5" "east")) !! "Lakeview"%string =
    Some {| latitude := 27 # 2; longitude := 7759 # 100 |} /\
  sites_file (fst (save_changes decimal editing "Lakeview" "13.5" "east")) =
    sites_file editing.
Proof.
  destruct (latitude_kept_when_longitude_fails decimal editing "Lakeview" "13.5" "east"
              (27 # 2) lakeview eq_refl eq_refl eq_refl eq_refl) as (_ & H1 & _ & H2 & _).
  split; [exact H1|exact H2].
Defined.

Lemma no_change_without_success_witness :
  add_site decimal editing "Hilltop" "" "77" = (editing, Silent) /\
  fst (save_changes decimal editing "Lakeview" "north" "77") = editing.
Proof.
  destruct (no_change_without_success decimal editing "Hilltop" "" "77") as (_ & H1 & _).
  destruct (no_change_without_success decimal editing "Lakeview" "north" "77")
    as (_ & _ & _ & H2).
  split; [apply H1|apply H2]; auto.
Defined.

Lemma added_site_is_saved_by_next_edit_witness :
  sites (new_session
           (sites_file
              (fst (save_changes decimal (fst (add_site decimal editing "Hilltop" "12.5" "77"))
                      "Lakeview" "13.0" "77.6")))) !! "Hilltop"%string =
    Some {| latitude := 25 # 2; longitude := 77%Q |} /\
  sites (new_session (sites_file (fst (add_site decimal editing "Hilltop" "12.5" "77"))))
    !! "Hilltop"%string = None.
Proof.
  destruct (added_site_is_saved_by_next_edit decimal editing "Hilltop" "12.5" "77"
              "Lakeview" "13.0" "77.6" _ _ eq_refl eq_refl ltac:(discriminate))
    as (H1 & (lat & lon & Hlat & Hlon & H2) & _).
  split.
  - rewrite H2. injection Hlat as <-. injection Hlon as <-. reflexivity.
  - rewrite H1. vm_compute. reflexivity.
Defined.

End RegistryOutcomeSamples.

(** ** The forecast and advisory block of the page *)

Section PageFlow.
Import Pipeline Fetcher ForecastCache Advisory Rendering Page MoreSamples.
Context {number body : Type} `{EqDecision number}.
Variable as_weather : body -> payload weather_hourly.
Variable as_aqi : body -> payload aqi_hourly.
Variable to_json : list (string * summary_row) -> string.

Lemma stale_refetches (network : request number -> reply body) (m : memo number body)
      (now : Z) (lat lon : number) :
  (forall s, find_slot (lat, lon) (slots m) = Some s -> fetched_at s + ForecastCache.ttl <= now) ->
  cached_fetch network m now lat lon = refetch network m now lat lon.
Proof.
  intros Hstale. unfold cached_fetch.
  destruct (find_slot (lat, lon) (slots m)) as [s|]; [|reflexivity].
  specialize (Hstale s eq_refl).
  replace (now <? fetched_at s + ForecastCache.ttl) with false
    by (symmetry; apply Z.ltb_ge; lia).
  reflexivity.
Qed.

(** X19: for a site whose name is the text "Select a site" the block shows
    the prompt only: nothing is requested and the generator is not called.
    For any other site, when no live forecast is cached and one of the two
    requests fails, the fetch of that run reports its one failure message and
    the block shows neither tables nor advice: the advisory generator is not
    called, and only the requests of that one fetch are issued. *)
Theorem no_forecast_after_failed_fetch (network : request number -> reply body)
    (env : environment) (c : caches number body) (now : Z) (reload : bool)
    (selected_site : string) (lat lon : number) :
  (selected_site = "Select a site"%string ->
   forecast_section as_weather as_aqi to_json network env c now reload selected_site lat lon
     = (Prompt, c)) /\
  (selected_site <> "Select a site"%string ->
   (forall s, find_slot (lat, lon) (slots (forecasts c)) = Some s ->
              fetched_at s + ForecastCache.ttl <= now) ->
   request_fails (network (Fetcher.Forecast lat lon)) \/
   request_fails (network (Fetcher.AirQuality lat lon)) ->
   let out := forecast_section as_weather as_aqi to_json network env c now reload
                selected_site lat lon in
   fst out = NoForecast /\
   advisories (snd out) = advisories c /\
   issued (forecasts (snd out)) =
     issued (forecasts c) ++ requested (fetch_forecast_data network lat lon) /\
   exists e, reported (fetch_forecast_data network lat lon) = [failure_message e]).
Proof.
  split.
  - intros ->. reflexivity.
  - intros Hname Hstale Hfail. unfold forecast_section.
    destruct (String.eqb_spec selected_site "Select a site") as [E|_]; [contradiction|].
    rewrite (stale_refetches network _ now lat lon Hstale). unfold refetch.
    rewrite (fetch_fails network lat lon Hfail). simpl.
    split; [reflexivity|]. split; [reflexivity|]. split; [reflexivity|].
    pose proof (fetch_fails network lat lon Hfail) as Hret.
    unfold fetch_forecast_data in *.
    destruct (get_json (network (Fetcher.Forecast lat lon))) as [e|w]; simpl; [eauto|].
    destruct (get_json (network (Fetcher.AirQuality lat lon))) as [e|a]; simpl in *;
      [eauto|discriminate].
Qed.

(** X20: a run in which "Reload Recommendations" was clicked and the forecast
    is shown invokes the generative service once when a non-empty secret is
    configured, even if the advice for that summary was cached a moment
    ago. *)
Theorem reload_regenerates_in_the_same_run (network : request number -> reply body)
    (env : environment) (c c' : caches number body) (now : Z)
    (selected_site secret : string) (lat lon : number)
    (hourly_df : list (Z * hourly_row)) (summary_df : list (string * summary_row))
    (advice : display) :
  api_key env = Some secret ->
  secret <> EmptyString ->
  forecast_section as_weather as_aqi to_json network env c now true selected_site lat lon
    = (Forecast hourly_df summary_df advice, c') ->
  invocations (advisories c') = S (invocations (advisories c)).
Proof.
  intros Hkey Hsecret. unfold forecast_section.
  destruct (String.eqb selected_site "Select a site"); [discriminate|].
  destruct (cached_fetch network (forecasts c) now lat lon) as [data forecasts'].
  destruct (Pipeline.truthy _ && Pipeline.truthy _); [|discriminate].
  destruct (process_data _ _) as [|h s|e]; [discriminate| |discriminate].
  unfold get_health_recommendations, clear. simpl. rewrite lookup_empty.
  unfold regenerate, generate. simpl. rewrite Hkey.
  destruct secret as [|ch secret]; [contradiction|].
  destruct (generate_content env _ _); intros E; injection E as _ _ _ <-; reflexivity.
Qed.

(** X21: the block never reaches a missing summary: [process_data] is called
    on truthy values only, so its [(None, None)] return cannot occur there;
    and when it shows a forecast, the two tables are those [process_data]
    gives for the fetched values, whatever the generator returns. *)
Theorem summary_is_never_missing (network : request number -> reply body)
    (env : environment) (c : caches number body) (now : Z) (reload : bool)
    (selected_site : string) (lat lon : number) :
  let out := forecast_section as_weather as_aqi to_json network env c now reload
               selected_site lat lon in
  fst out <> Aborted AttributeError /\
  (forall hourly_df summary_df advice, fst out = Forecast hourly_df summary_df advice ->
     let data := fst (cached_fetch network (forecasts c) now lat lon) in
     process_data (python_value (fst data) as_weather) (python_value (snd data) as_aqi)
       = Frames hourly_df summary_df).
Proof.
  unfold forecast_section.
  destruct (String.eqb selected_site "Select a site"); [split; discriminate|].
  destruct (cached_fetch network (forecasts c) now lat lon) as [data forecasts']. simpl.
  destruct (python_value (fst data) as_weather) as [| |wh] eqn:Ew;
    destruct (python_value (snd data) as_aqi) as [| |ah] eqn:Ea; simpl;
    try (split; discriminate).
  destruct (process_data (Dict wh) (Dict ah)) as [|h s|e] eqn:Hrun.
  - exfalso. unfold process_data in Hrun. simpl in Hrun.
    destruct wh as [wh|]; [|discriminate].
    destruct (weather_frame wh); [|discriminate].
    destruct ah as [ah|]; [|discriminate].
    destruct (aqi_frame ah); discriminate.
  - destruct (get_health_recommendations env _ now (to_json s)) as [recs adv]. simpl.
    split; [discriminate|]. intros h' s' advice E. injection E as <- <- _. reflexivity.
  - split; discriminate.
Qed.

End PageFlow.

Section PageSamples.
Import Pipeline Fetcher ForecastCache Advisory Rendering Page Samples MoreSamples PipelineExamples.

Lemma no_forecast_after_failed_fetch_witness :
  fst (forecast_section read_weather read_aqi keys_json network_down steady_env fresh_caches
         0 false "Lakeview" 12 77) = NoForecast /\
  advisories (snd (forecast_section read_weather read_aqi keys_json network_down steady_env
                     fresh_caches 0 false "Lakeview" 12 77)) = no_cache.
Proof.
  destruct (no_forecast_after_failed_fetch read_weather read_aqi keys_json
              network_down steady_env fresh_caches 0 false "Lakeview" 12 77) as [_ H].
  destruct H as (H1 & H2 & _); [discriminate|discriminate|left; exact I|].
  split; [exact H1|exact H2].
Defined.

Lemma reload_regenerates_in_the_same_run_witness :
  exists hourly_df summary_df advice c',
    forecast_section read_weather read_aqi keys_json network_up steady_env fresh_caches
      0 true "Lakeview" 12 77 = (Forecast hourly_df summary_df advice, c') /\
    invocations (advisories c') = 1%nat.
Proof.
  destruct (forecast_section read_weather read_aqi keys_json network_up steady_env
              fresh_caches 0 true "Lakeview" 12 77) as [v c'] eqn:Hrun.
  destruct v as [| |h s adv|e]; try (vm_compute in Hrun; discriminate).
  exists h, s, adv, c'. split; [reflexivity|].
  apply (reload_regenerates_in_the_same_run read_weather read_aqi keys_json network_up
           steady_env fresh_caches c' 0 "Lakeview" "key" 12 77 h s adv eq_refl
           ltac:(discriminate) Hrun).
Defined.

Lemma summary_is_never_missing_witness :
  fst (forecast_section read_weather read_aqi keys_json network_up keyless_env fresh_caches
         0 false "Lakeview" 12 77) <> Aborted AttributeError.
Proof.
  apply (summary_is_never_missing read_weather read_aqi keys_json network_up keyless_env
           fresh_caches 0 false "Lakeview" 12 77).
Defined.

End PageSamples.
